(** * AirSim/tcp_socket.py: TcpServer and TcpClient

    A shallow embedding of the two classes of [AirSim/tcp_socket.py] and of
    the part of Python's [socket] and [io] modules they call.

    - Python objects live in a heap indexed by object identity; a socket
      object carries the fields of CPython's [socket.socket]
      ([_closed], [_io_refs], the descriptor), a file object those of the
      text wrapper returned by [makefile].
    - Every call into the platform is appended to a trace, so that the
      order of calls can be stated.
    - A call either returns, raises, or blocks for ever ([accept] with no
      peer); the three are the constructors of [outcome].
    - Failures that the modelled state does not decide (a flush on a broken
      pipe, [EMFILE], ...) come from the world's [faults] oracle. *)

From Stdlib Require Import ZArith Ascii String List Bool Lia.
From stdpp Require Import base decidable option list strings gmap.

Local Open Scope string_scope.
Local Open Scope list_scope.

(** ** Exceptions *)

Inductive errno :=
| EACCES | EADDRINUSE | EBADF | ECONNABORTED | ECONNREFUSED | ECONNRESET
| EINVAL | EIO | EMFILE | EPIPE | ESHUTDOWN | ETIMEDOUT
| EAI_NONAME (* [socket.gaierror], an [OSError]: the host does not resolve *).

Inductive exn :=
| OSError (e : errno)
| ValueError (msg : string)
| TypeError (msg : string)
| AttributeError (name : string).


Definition is_ECONNRESET (e : errno) : bool :=
  match e with ECONNRESET => true | _ => false end.

(** ** Outcomes and the state monad *)

Inductive outcome (A : Type) :=
| Returned (a : A)
| Raised (e : exn)
| Blocked.
Arguments Returned {A} a.
Arguments Raised {A} e.
Arguments Blocked {A}.

Definition M (S A : Type) : Type := S -> outcome A * S.

Definition ret {S A} (a : A) : M S A := fun s => (Returned a, s).
Definition raise {S A} (e : exn) : M S A := fun s => (Raised e, s).
Definition block {S A} : M S A := fun s => (Blocked, s).

Definition bind {S A B} (m : M S A) (k : A -> M S B) : M S B :=
  fun s =>
    match m s with
    | (Returned a, s') => k a s'
    | (Raised e, s') => (Raised e, s')
    | (Blocked, s') => (Blocked, s')
    end.

Declare Scope py_scope.
Delimit Scope py_scope with py.
Notation "x <- c ;; k" := (bind c (fun x => k))
  (at level 100, c at next level, right associativity) : py_scope.
Notation "c ;; k" := (bind c (fun _ => k))
  (at level 100, right associativity) : py_scope.
Local Open Scope py_scope.

(** [try: body finally: fin]. The clean-up runs after a return and after
    a raise; an exception of the clean-up replaces the pending one. *)
Definition try_finally {S A} (body : M S A) (fin : M S unit) : M S A :=
  fun s =>
    match body s with
    | (Blocked, s') => (Blocked, s')
    | (o, s') =>
        match fin s' with
        | (Returned _, s'') => (o, s'')
        | (Raised e, s'') => (Raised e, s'')
        | (Blocked, s'') => (Blocked, s'')
        end
    end.

(** ** Python objects of the platform *)

(** Object identities and (host, port) endpoints. *)
Abbreviation ref := nat.
Abbreviation addr := (string * Z)%type.

Inductive af := AF_INET | AF_INET6 | AF_UNIX.
Inductive socktype := SOCK_STREAM | SOCK_DGRAM.
Inductive level := SOL_SOCKET | IPPROTO_TCP.
Inductive optname := SO_REUSEADDR | SO_KEEPALIVE | TCP_NODELAY.

(** [socket.socket]: [s_fd] tells whether the descriptor is still valid,
    [s_closed] and [s_io_refs] are the attributes [_closed] and [_io_refs]. *)
Record sockobj := mkSock {
  s_fd : bool;
  s_closed : bool;
  s_io_refs : nat;
  s_reuseaddr : bool;
  s_bound : option addr;
  s_backlog : option Z;
  s_peer : option addr
}.

(** The object returned by [makefile]: a buffered stream over [f_sock];
    [f_encoding] is [None] for a binary stream. *)
Record fileobj := mkFile {
  f_sock : ref;
  f_readable : bool;
  f_writable : bool;
  f_encoding : option string;
  f_closed : bool
}.

Inductive pyobj :=
| Sock (s : sockobj)
| File (f : fileobj)
| DataStream (stream : ref).

Inductive event :=
| EvSocket (family : af) (type : socktype)
| EvSetsockopt (s : ref) (lv : level) (opt : optname) (value : Z)
| EvBind (s : ref) (a : addr)
| EvListen (s : ref) (backlog : Z)
| EvAccept (s : ref)
| EvConnect (s : ref) (a : addr)
| EvMakefile (s : ref) (mode : string) (encoding : string)
| EvFileClose (f : ref)
| EvSockClose (s : ref)
| EvPrint (msg : string)
| EvDataStream (f : ref).

Inductive site :=
| AtSocket
| AtSetsockopt (s : ref)
| AtBind (s : ref)
| AtListen (s : ref)
| AtAccept (s : ref)
| AtConnect (s : ref)
| AtFlush (f : ref)
| AtClose (s : ref).

(** ** The world *)

Record World := mkWorld {
  heap : gmap ref pyobj;         (* live Python objects *)
  next : ref;                    (* next object identity *)
  listening : gset addr;         (* endpoints held by a bound listener *)
  incoming : gmap addr (list addr); (* peers queued towards an endpoint *)
  faults : site -> option errno; (* failures decided by the environment *)
  trace : list event             (* platform calls so far, oldest first *)
}.

Definition set_heap (h : gmap ref pyobj) (w : World) : World :=
  mkWorld h (next w) (listening w) (incoming w) (faults w) (trace w).
Definition set_next (n : ref) (w : World) : World :=
  mkWorld (heap w) n (listening w) (incoming w) (faults w) (trace w).
Definition set_listening (l : gset addr) (w : World) : World :=
  mkWorld (heap w) (next w) l (incoming w) (faults w) (trace w).
Definition set_incoming (q : gmap addr (list addr)) (w : World) : World :=
  mkWorld (heap w) (next w) (listening w) q (faults w) (trace w).
Definition set_trace (t : list event) (w : World) : World :=
  mkWorld (heap w) (next w) (listening w) (incoming w) (faults w) t.

Definition W (A : Type) : Type := M World A.

Definition log (e : event) : W unit :=
  fun w => (Returned tt, set_trace (trace w ++ [e]) w).

Definition fault (s : site) : W unit :=
  fun w =>
    match faults w s with
    | Some e => (Raised (OSError e), w)
    | None => (Returned tt, w)
    end.

Definition alloc (o : pyobj) : W ref :=
  fun w => (Returned (next w), set_next (S (next w)) (set_heap (<[next w := o]> (heap w)) w)).

Definition store (r : ref) (o : pyobj) : W unit :=
  fun w => (Returned tt, set_heap (<[r := o]> (heap w)) w).

Definition get_sock (r : ref) : W sockobj :=
  fun w =>
    match heap w !! r with
    | Some (Sock s) => (Returned s, w)
    | _ => (Raised (TypeError "not a socket"), w)
    end.

Definition get_file (r : ref) : W fileobj :=
  fun w =>
    match heap w !! r with
    | Some (File f) => (Returned f, w)
    | _ => (Raised (TypeError "not a file object"), w)
    end.

Definition require_fd (s : sockobj) : W unit :=
  if s_fd s then ret tt else raise (OSError EBADF).

Definition print (msg : string) : W unit := log (EvPrint msg).

(** ** Python's [socket] module *)
Module Socket.

Definition fresh : sockobj := mkSock true false 0 false None None None.

(** [socket.socket(family, type)] *)
Definition socket (f : af) (t : socktype) : W ref :=
  log (EvSocket f t);;
  fault AtSocket;;
  alloc (Sock fresh).

(** [s.setsockopt(level, optname, value)] *)
Definition setsockopt (r : ref) (lv : level) (opt : optname) (v : Z) : W unit :=
  log (EvSetsockopt r lv opt v);;
  s <- get_sock r;;
  require_fd s;;
  fault (AtSetsockopt r);;
  match lv, opt with
  | SOL_SOCKET, SO_REUSEADDR =>
      store r (Sock (mkSock (s_fd s) (s_closed s) (s_io_refs s) (negb (v =? 0)%Z)
                            (s_bound s) (s_backlog s) (s_peer s)))
  | _, _ => ret tt
  end.

(** [s.bind(address)]: [EADDRINUSE] when another listener holds the
    address, [EINVAL] when the socket is bound already. A host that does
    not resolve is one of the failures the oracle answers at [AtBind]. The
    model covers addresses Python converts without an error of its own and
    a port the caller fixes: a port outside 0..65535 ([OverflowError] before
    any system call) and port 0 (the system picks a free port) are outside
    it; the statements that depend on this say so ([accepted_address],
    [fixed_address]). *)
Definition bind (r : ref) (a : addr) : W unit :=
  log (EvBind r a);;
  s <- get_sock r;;
  require_fd s;;
  fault (AtBind r);;
  fun w =>
    if decide (a ∈ listening w) then (Raised (OSError EADDRINUSE), w)
    else match s_bound s with
         | Some _ => (Raised (OSError EINVAL), w)
         | None =>
             store r (Sock (mkSock (s_fd s) (s_closed s) (s_io_refs s) (s_reuseaddr s)
                                   (Some a) (s_backlog s) (s_peer s))) w
         end.

(** [s.listen(backlog)]: from now on the bound address has a listener. The
    address is the argument [bind] was given, in the caller's spelling. *)
Definition listen (r : ref) (backlog : Z) : W unit :=
  log (EvListen r backlog);;
  s <- get_sock r;;
  require_fd s;;
  fault (AtListen r);;
  store r (Sock (mkSock (s_fd s) (s_closed s) (s_io_refs s) (s_reuseaddr s)
                        (s_bound s) (Some backlog) (s_peer s)));;
  fun w =>
    match s_bound s with
    | Some a => (Returned tt, set_listening ({[a]} ∪ listening w) w)
    | None => (Returned tt, w)
    end.

(** [s.accept()]: takes the oldest queued peer and returns a new socket
    connected to it together with the peer's address; with no peer queued
    the call never returns. *)
Definition accept (r : ref) : W (ref * addr) :=
  log (EvAccept r);;
  s <- get_sock r;;
  require_fd s;;
  fault (AtAccept r);;
  match s_backlog s, s_bound s with
  | Some _, Some a =>
      fun w =>
        match incoming w !! a with
        | Some (peer :: rest) =>
            (c <- alloc (Sock (mkSock true false 0 false None None (Some peer)));;
             ret (c, peer)) (set_incoming (<[a := rest]> (incoming w)) w)
        | _ => block w
        end
  | _, _ => raise (OSError EINVAL)
  end.

(** [s.connect(address)]: refused when nothing listens at the address. A
    host that does not resolve is one of the failures the oracle answers at
    [AtConnect]; a port outside 0..65535 is outside the model, as for
    [bind]. *)
Definition connect (r : ref) (a : addr) : W unit :=
  log (EvConnect r a);;
  s <- get_sock r;;
  require_fd s;;
  fault (AtConnect r);;
  fun w =>
    if decide (a ∈ listening w) then
      store r (Sock (mkSock (s_fd s) (s_closed s) (s_io_refs s) (s_reuseaddr s)
                            (s_bound s) (s_backlog s) (Some a))) w
    else (Raised (OSError ECONNREFUSED), w).

(** [socket._real_close]: the descriptor is invalidated before the system
    call, so a second call does nothing; [ECONNRESET] is ignored. *)
Definition real_close (r : ref) : W unit :=
  s <- get_sock r;;
  if s_fd s then
    store r (Sock (mkSock false (s_closed s) (s_io_refs s) (s_reuseaddr s)
                          (s_bound s) (s_backlog s) (s_peer s)));;
    (fun w =>
       match s_backlog s, s_bound s with
       | Some _, Some a => (Returned tt, set_listening (listening w ∖ {[a]}) w)
       | _, _ => (Returned tt, w)
       end);;
    fun w =>
      match faults w (AtClose r) with
      | Some e => if is_ECONNRESET e then (Returned tt, w) else (Raised (OSError e), w)
      | None => (Returned tt, w)
      end
  else ret tt.

(** [s.close()]: sets [_closed]; the descriptor is released only when no
    file object made by [makefile] is still open. *)
Definition close (r : ref) : W unit :=
  log (EvSockClose r);;
  s <- get_sock r;;
  store r (Sock (mkSock (s_fd s) true (s_io_refs s) (s_reuseaddr s)
                        (s_bound s) (s_backlog s) (s_peer s)));;
  if (s_io_refs s <=? 0)%nat then real_close r else ret tt.

(** [socket._decref_socketios], called when a file object closes. *)
Definition decref_socketios (r : ref) : W unit :=
  s <- get_sock r;;
  store r (Sock (mkSock (s_fd s) (s_closed s)
                        (if (0 <? s_io_refs s)%nat then pred (s_io_refs s) else s_io_refs s)
                        (s_reuseaddr s) (s_bound s) (s_backlog s) (s_peer s)));;
  if s_closed s then close r else ret tt.

Fixpoint has_char (c : ascii) (s : string) : bool :=
  match s with
  | EmptyString => false
  | String d s' => Ascii.eqb c d || has_char c s'
  end.

Fixpoint mode_ok (s : string) : bool :=
  match s with
  | EmptyString => true
  | String d s' => has_char d "rwb" && mode_ok s'
  end.

(** [s.makefile(mode, encoding=...)]: counts one more file object on the
    socket and returns a stream over it, a text stream unless the mode
    has [b]. *)
Definition makefile (r : ref) (mode : string) (encoding : string) : W ref :=
  log (EvMakefile r mode encoding);;
  if negb (mode_ok mode) then raise (ValueError "invalid mode")
  else
    let writing := has_char "w"%char mode in
    let reading := has_char "r"%char mode || negb writing in
    let binary := has_char "b"%char mode in
    s <- get_sock r;;
    store r (Sock (mkSock (s_fd s) (s_closed s) (S (s_io_refs s)) (s_reuseaddr s)
                          (s_bound s) (s_backlog s) (s_peer s)));;
    alloc (File (mkFile r reading writing
                        (if binary then None else Some encoding) false)).

End Socket.

(** ** The stream returned by [makefile] *)
Module TextIO.

(** [f.close()]: nothing on a closed stream; otherwise the buffer is
    flushed, and whether or not the flush raised, the stream is marked
    closed and its socket is told so. The flush is modelled by its two
    ends, a return or an error; a flush that waits without end on a peer
    that does not read is outside the model. *)
Definition close (f : ref) : W unit :=
  log (EvFileClose f);;
  fo <- get_file f;;
  if f_closed fo then ret tt
  else
    try_finally
      (if f_writable fo then fault (AtFlush f) else ret tt)
      (store f (File (mkFile (f_sock fo) (f_readable fo) (f_writable fo)
                             (f_encoding fo) true));;
       Socket.decref_socketios (f_sock fo)).

End TextIO.

(** Modelled from the spec: the class [DataStream] of the module
    [data_stream], which [tcp_socket.py] imports and which is not among the
    sources. The spec calls it the Stream Adapter, an object wrapping the
    stream it is given; constructing one allocates a new wrapper. *)
Definition DataStream_new (stream : ref) : W ref :=
  log (EvDataStream stream);;
  alloc (DataStream stream).

(** ** Instances: state of a method call *)

Record St (I : Type) := mkSt { self : I; world : World }.
Arguments mkSt {I} self world.
Arguments self {I} s.
Arguments world {I} s.

Definition lift {I A} (m : W A) : M (St I) A :=
  fun st =>
    match m (world st) with
    | (o, w') => (o, mkSt (self st) w')
    end.

(** [self.name], an [AttributeError] when the attribute was never set. *)
Definition getattr {I A} (name : string) (proj : I -> option A) : M (St I) A :=
  fun st =>
    match proj (self st) with
    | Some v => (Returned v, st)
    | None => (Raised (AttributeError name), st)
    end.

Definition setattr {I} (upd : I -> I) : M (St I) unit :=
  fun st => (Returned tt, mkSt (upd (self st)) (world st)).

(** ** class TcpServer *)
Module TcpServer.

Record t := mk {
  serversock : option ref;
  clientsock : option ref;
  client_address : option addr;
  stream : option ref
}.

(** The object as [__init__] receives it: no attribute set. *)
Definition empty : t := mk None None None None.

Definition set_serversock (v : ref) (o : t) : t :=
  mk (Some v) (clientsock o) (client_address o) (stream o).
Definition set_clientsock (v : ref) (o : t) : t :=
  mk (serversock o) (Some v) (client_address o) (stream o).
Definition set_client_address (v : addr) (o : t) : t :=
  mk (serversock o) (clientsock o) (Some v) (stream o).
Definition set_stream (v : ref) (o : t) : t :=
  mk (serversock o) (clientsock o) (client_address o) (Some v).

Definition __init__ (ip : string) (port : Z) : M (St t) unit :=
  s <- lift (Socket.socket AF_INET SOCK_STREAM);;
  setattr (set_serversock s);;
  s <- getattr "serversock" serversock;;
  lift (Socket.setsockopt s SOL_SOCKET SO_REUSEADDR 1);;
  s <- getattr "serversock" serversock;;
  lift (Socket.bind s (ip, port));;
  s <- getattr "serversock" serversock;;
  lift (Socket.listen s 1);;
  lift (print "Waiting for connections...");;
  s <- getattr "serversock" serversock;;
  ca <- lift (Socket.accept s);;
  setattr (set_clientsock (fst ca));;
  setattr (set_client_address (snd ca));;
  c <- getattr "clientsock" clientsock;;
  f <- lift (Socket.makefile c "rw" "utf-8");;
  setattr (set_stream f);;
  lift (print "Connected!").

Definition get_stream : M (St t) ref :=
  f <- getattr "stream" stream;;
  lift (DataStream_new f).

Definition close : M (St t) unit :=
  f <- getattr "stream" stream;;
  lift (TextIO.close f);;
  c <- getattr "clientsock" clientsock;;
  lift (Socket.close c);;
  s <- getattr "serversock" serversock;;
  lift (Socket.close s).

End TcpServer.

(** ** class TcpClient *)
Module TcpClient.

Record t := mk {
  client : option ref;
  stream : option ref
}.

Definition empty : t := mk None None.

Definition set_client (v : ref) (o : t) : t := mk (Some v) (stream o).
Definition set_stream (v : ref) (o : t) : t := mk (client o) (Some v).

Definition __init__ (ip : string) (port : Z) : M (St t) unit :=
  s <- lift (Socket.socket AF_INET SOCK_STREAM);;
  setattr (set_client s);;
  s <- getattr "client" client;;
  lift (Socket.connect s (ip, port));;
  s <- getattr "client" client;;
  f <- lift (Socket.makefile s "rw" "utf-8");;
  setattr (set_stream f);;
  lift (print "Connected!").

Definition get_stream : M (St t) ref :=
  f <- getattr "stream" stream;;
  lift (DataStream_new f).

Definition close : M (St t) unit :=
  f <- getattr "stream" stream;;
  lift (TextIO.close f);;
  c <- getattr "client" client;;
  lift (Socket.close c).

End TcpClient.

(** Default arguments of both constructors. *)
Definition default_ip : string := "127.0.0.1".
Definition default_port : Z := 3000.

(** * Vocabulary of the statements *)

(** ** Object states reached by the two classes *)

Definition sock_released (s : sockobj) : sockobj :=
  mkSock false true (s_io_refs s) (s_reuseaddr s) (s_bound s) (s_backlog s) (s_peer s).
Definition sock_decref (s : sockobj) : sockobj :=
  mkSock (s_fd s) (s_closed s) (pred (s_io_refs s)) (s_reuseaddr s) (s_bound s)
         (s_backlog s) (s_peer s).
Definition file_closed (f : fileobj) : fileobj :=
  mkFile (f_sock f) (f_readable f) (f_writable f) (f_encoding f) true.

(** What the environment answers to the system call of [_real_close] and
    to the flush of a stream. *)
Definition close_outcome (w : World) (r : ref) : outcome unit :=
  match faults w (AtClose r) with
  | Some e => if is_ECONNRESET e then Returned tt else Raised (OSError e)
  | None => Returned tt
  end.

Definition flush_outcome (w : World) (f : ref) : outcome unit :=
  match faults w (AtFlush f) with
  | Some e => Raised (OSError e)
  | None => Returned tt
  end.

Definition unlisten (s : sockobj) (l : gset addr) : gset addr :=
  match s_backlog s, s_bound s with
  | Some _, Some a => l ∖ {[a]}
  | _, _ => l
  end.

(** The world after [f.close()] on an open stream [fo] over the socket [sc],
    and after [r.close()] on a socket [s] no stream is open on. *)
Definition after_stream_close (w : World) (f : ref) (fo : fileobj) (sc : sockobj) : World :=
  mkWorld (<[f_sock fo := Sock (sock_decref sc)]> (<[f := File (file_closed fo)]> (heap w)))
          (next w) (listening w) (incoming w) (faults w) (trace w ++ [EvFileClose f]).

Definition after_sock_close (w : World) (r : ref) (s : sockobj) : World :=
  mkWorld (<[r := Sock (sock_released s)]> (heap w)) (next w)
          (unlisten s (listening w)) (incoming w) (faults w) (trace w ++ [EvSockClose r]).

Definition after_get_stream (w : World) (f : ref) : World :=
  mkWorld (<[next w := DataStream f]> (heap w)) (S (next w)) (listening w)
          (incoming w) (faults w) (trace w ++ [EvDataStream f]).

Definition text_stream (s : ref) : fileobj :=
  mkFile s true true (Some "utf-8") false.

(** ** Listener: the states of [TcpServer.__init__] *)

Definition server_sock (a : addr) : sockobj :=
  mkSock true false 0 true (Some a) (Some 1%Z) None.
Definition peer_sock (peer : addr) : sockobj :=
  mkSock true false 1 false None None (Some peer).

Definition server_init_events (n : ref) (a : addr) : list event :=
  [EvSocket AF_INET SOCK_STREAM; EvSetsockopt n SOL_SOCKET SO_REUSEADDR 1;
   EvBind n a; EvListen n 1; EvPrint "Waiting for connections...";
   EvAccept n; EvMakefile (S n) "rw" "utf-8"; EvPrint "Connected!"].

Definition server_connected (w : World) (a peer : addr) (rest : list addr) : St TcpServer.t :=
  let n := next w in
  mkSt (TcpServer.mk (Some n) (Some (S n)) (Some peer) (Some (S (S n))))
       (mkWorld (<[S (S n) := File (text_stream (S n))]>
                   (<[S n := Sock (peer_sock peer)]>
                      (<[n := Sock (server_sock a)]> (heap w))))
                (S (S (S n)))
                ({[a]} ∪ listening w)
                (<[a := rest]> (incoming w))
                (faults w)
                (trace w ++ server_init_events n a)).

Definition listener_only (n : ref) : TcpServer.t := TcpServer.mk (Some n) None None None.

(** Every way [TcpServer.__init__] can end, with the state it ends in. *)
Inductive server_init_case (ip : string) (port : Z) (w : World) :
  outcome unit -> St TcpServer.t -> Prop :=
| SI_socket e st :
    faults w AtSocket = Some e ->
    self st = TcpServer.empty -> heap (world st) = heap w ->
    trace (world st) = trace w ++ take 1 (server_init_events (next w) (ip, port)) ->
    server_init_case ip port w (Raised (OSError e)) st
| SI_setsockopt e st s :
    faults w AtSocket = None -> faults w (AtSetsockopt (next w)) = Some e ->
    self st = listener_only (next w) ->
    heap (world st) = <[next w := Sock s]> (heap w) ->
    trace (world st) = trace w ++ take 2 (server_init_events (next w) (ip, port)) ->
    server_init_case ip port w (Raised (OSError e)) st
| SI_bind e st s :
    faults w AtSocket = None -> faults w (AtSetsockopt (next w)) = None ->
    faults w (AtBind (next w)) = Some e ->
    self st = listener_only (next w) ->
    heap (world st) = <[next w := Sock s]> (heap w) ->
    trace (world st) = trace w ++ take 3 (server_init_events (next w) (ip, port)) ->
    server_init_case ip port w (Raised (OSError e)) st
| SI_in_use st s :
    faults w AtSocket = None -> faults w (AtSetsockopt (next w)) = None ->
    faults w (AtBind (next w)) = None ->
    (ip, port) ∈ listening w ->
    self st = listener_only (next w) ->
    heap (world st) = <[next w := Sock s]> (heap w) ->
    trace (world st) = trace w ++ take 3 (server_init_events (next w) (ip, port)) ->
    server_init_case ip port w (Raised (OSError EADDRINUSE)) st
| SI_listen e st s :
    (ip, port) ∉ listening w ->
    faults w (AtListen (next w)) = Some e ->
    self st = listener_only (next w) ->
    heap (world st) = <[next w := Sock s]> (heap w) ->
    trace (world st) = trace w ++ take 4 (server_init_events (next w) (ip, port)) ->
    server_init_case ip port w (Raised (OSError e)) st
| SI_accept e st s :
    (ip, port) ∉ listening w ->
    faults w (AtAccept (next w)) = Some e ->
    self st = listener_only (next w) ->
    heap (world st) = <[next w := Sock s]> (heap w) ->
    trace (world st) = trace w ++ take 6 (server_init_events (next w) (ip, port)) ->
    server_init_case ip port w (Raised (OSError e)) st
| SI_blocked st s :
    (ip, port) ∉ listening w ->
    incoming w !! (ip, port) = None \/ incoming w !! (ip, port) = Some [] ->
    self st = listener_only (next w) ->
    heap (world st) = <[next w := Sock s]> (heap w) ->
    trace (world st) = trace w ++ take 6 (server_init_events (next w) (ip, port)) ->
    server_init_case ip port w Blocked st
| SI_returned peer rest :
    faults w AtSocket = None -> faults w (AtSetsockopt (next w)) = None ->
    faults w (AtBind (next w)) = None -> faults w (AtListen (next w)) = None ->
    faults w (AtAccept (next w)) = None ->
    (ip, port) ∉ listening w ->
    incoming w !! (ip, port) = Some (peer :: rest) ->
    server_init_case ip port w (Returned tt) (server_connected w (ip, port) peer rest).


(** ** Connector: the states of [TcpClient.__init__] *)

Definition client_sock (a : addr) : sockobj :=
  mkSock true false 1 false None None (Some a).

Definition client_init_events (n : ref) (a : addr) : list event :=
  [EvSocket AF_INET SOCK_STREAM; EvConnect n a; EvMakefile n "rw" "utf-8";
   EvPrint "Connected!"].

Definition client_connected (w : World) (a : addr) : St TcpClient.t :=
  let n := next w in
  mkSt (TcpClient.mk (Some n) (Some (S n)))
       (mkWorld (<[S n := File (text_stream n)]> (<[n := Sock (client_sock a)]> (heap w)))
                (S (S n)) (listening w) (incoming w) (faults w)
                (trace w ++ client_init_events n a)).

Definition socket_only (n : ref) : TcpClient.t := TcpClient.mk (Some n) None.

Inductive client_init_case (ip : string) (port : Z) (w : World) :
  outcome unit -> St TcpClient.t -> Prop :=
| CI_socket e st :
    faults w AtSocket = Some e ->
    self st = TcpClient.empty -> heap (world st) = heap w ->
    trace (world st) = trace w ++ take 1 (client_init_events (next w) (ip, port)) ->
    client_init_case ip port w (Raised (OSError e)) st
| CI_connect e st s :
    faults w AtSocket = None -> faults w (AtConnect (next w)) = Some e ->
    self st = socket_only (next w) ->
    heap (world st) = <[next w := Sock s]> (heap w) ->
    trace (world st) = trace w ++ take 2 (client_init_events (next w) (ip, port)) ->
    client_init_case ip port w (Raised (OSError e)) st
| CI_refused st s :
    faults w AtSocket = None -> faults w (AtConnect (next w)) = None ->
    (ip, port) ∉ listening w ->
    self st = socket_only (next w) ->
    heap (world st) = <[next w := Sock s]> (heap w) ->
    trace (world st) = trace w ++ take 2 (client_init_events (next w) (ip, port)) ->
    client_init_case ip port w (Raised (OSError ECONNREFUSED)) st
| CI_returned :
    faults w AtSocket = None -> faults w (AtConnect (next w)) = None ->
    (ip, port) ∈ listening w ->
    client_init_case ip port w (Returned tt) (client_connected w (ip, port)).

(** ** Instances and the objects they refer to *)

(** The attributes of a listener are set and refer to a listening socket
    [sl], a peer socket [sc] and a stream [fo] over the peer socket. *)
Definition server_at (st : St TcpServer.t) (ls cs f : ref)
    (sl sc : sockobj) (fo : fileobj) : Prop :=
  TcpServer.serversock (self st) = Some ls /\
  TcpServer.clientsock (self st) = Some cs /\
  TcpServer.stream (self st) = Some f /\
  heap (world st) !! ls = Some (Sock sl) /\
  heap (world st) !! cs = Some (Sock sc) /\
  heap (world st) !! f = Some (File fo) /\
  f_sock fo = cs /\ ls <> cs.

Definition client_at (st : St TcpClient.t) (cs f : ref)
    (sc : sockobj) (fo : fileobj) : Prop :=
  TcpClient.client (self st) = Some cs /\
  TcpClient.stream (self st) = Some f /\
  heap (world st) !! cs = Some (Sock sc) /\
  heap (world st) !! f = Some (File fo) /\
  f_sock fo = cs.

(** A socket no stream is open on, with a valid descriptor; a socket whose
    descriptor was released. *)
Definition sock_idle (s : sockobj) : Prop :=
  s_fd s = true /\ s_closed s = false /\ s_io_refs s = 0.
Definition sock_streaming (s : sockobj) : Prop :=
  s_fd s = true /\ s_closed s = false /\ s_io_refs s = 1.
Definition sock_gone (s : sockobj) : Prop :=
  s_fd s = false /\ s_closed s = true /\ s_io_refs s = 0.
Definition file_open (f : fileobj) : Prop :=
  f_closed f = false /\ f_writable f = true.

(** ** Callers *)

(** [n] calls of [m] in a row, collecting what they return. *)
Fixpoint times {S A} (n : nat) (m : M S A) : M S (list A) :=
  match n with
  | O => ret []
  | S k => a <- m;; l <- times k m;; ret (a :: l)
  end.

(** The operations an instance exposes. A caller may go on after a call
    that raised, so a sequence of calls keeps the state and drops the
    outcome. *)
Inductive call := GetStream | Close.

Definition server_call (c : call) (st : St TcpServer.t) : St TcpServer.t :=
  match c with
  | GetStream => snd (TcpServer.get_stream st)
  | Close => snd (TcpServer.close st)
  end.

Definition client_call (c : call) (st : St TcpClient.t) : St TcpClient.t :=
  match c with
  | GetStream => snd (TcpClient.get_stream st)
  | Close => snd (TcpClient.close st)
  end.

Definition server_calls (cs : list call) (st : St TcpServer.t) : St TcpServer.t :=
  fold_left (fun s c => server_call c s) cs st.

Definition client_calls (cs : list call) (st : St TcpClient.t) : St TcpClient.t :=
  fold_left (fun s c => client_call c s) cs st.

(** The calls that establish a connection. *)
Definition is_conn (e : event) : bool :=
  match e with
  | EvAccept _ | EvConnect _ _ => true
  | _ => false
  end.

Definition is_makefile (e : event) : bool :=
  match e with
  | EvMakefile _ _ _ => true
  | _ => false
  end.

Definition count_conn (t : list event) : nat := length (List.filter is_conn t).

(** A step from [w] to [w'] that establishes no connection: the trace grows
    by calls none of which is [accept] or [connect]. *)
Definition quiet (w w' : World) : Prop :=
  exists t, trace w' = trace w ++ t /\ count_conn t = 0.

(** The same for the state of a method call, whose instance moreover keeps
    its attributes. *)
Definition quiet_st {I} (st st' : St I) : Prop :=
  self st' = self st /\ quiet (world st) (world st').

(** Every run of [m] is a step of [R]. *)
Definition respects {S A} (R : S -> S -> Prop) (m : M S A) : Prop :=
  forall s, R s (snd (m s)).

(** ** Concrete worlds *)

Definition no_faults : site -> option errno := fun _ => None.

Definition a_peer : addr := ("127.0.0.1", 50412%Z).

(** One peer is about to connect to the default endpoint. *)
Definition world_one_peer : World :=
  mkWorld ∅ 0 ∅ {[ (default_ip, default_port) := [a_peer] ]} no_faults [].

(** Something listens at the default endpoint already. *)
Definition world_listener : World :=
  mkWorld ∅ 0 {[ (default_ip, default_port) ]} ∅ no_faults [].

(** Nothing listens and nobody connects. *)
Definition world_idle : World := mkWorld ∅ 0 ∅ ∅ no_faults [].

(** The flush of the stream with identity [f] hits a broken pipe. *)
Definition broken_pipe (f : ref) : site -> option errno :=
  fun s =>
    match s with
    | AtFlush r => if (r =? f)%nat then Some EPIPE else None
    | _ => None
    end.

Definition world_one_peer_broken : World :=
  mkWorld ∅ 0 ∅ {[ (default_ip, default_port) := [a_peer] ]} (broken_pipe 2) [].

Definition world_listener_broken : World :=
  mkWorld ∅ 0 {[ (default_ip, default_port) ]} ∅ (broken_pipe 1) [].

(** The system call closing the socket with identity [r] fails. *)
Definition close_eio (r : ref) : site -> option errno :=
  fun s =>
    match s with
    | AtClose x => if (x =? r)%nat then Some EIO else None
    | _ => None
    end.

Definition world_one_peer_eio : World :=
  mkWorld ∅ 0 ∅ {[ (default_ip, default_port) := [a_peer] ]} (close_eio 1) [].

(** The instances constructed in these worlds. *)
Definition listener_ok : St TcpServer.t :=
  server_connected world_one_peer (default_ip, default_port) a_peer [].
Definition connector_ok : St TcpClient.t :=
  client_connected world_listener (default_ip, default_port).
Definition listener_broken : St TcpServer.t :=
  server_connected world_one_peer_broken (default_ip, default_port) a_peer [].
Definition connector_broken : St TcpClient.t :=
  client_connected world_listener_broken (default_ip, default_port).
Definition listener_eio : St TcpServer.t :=
  server_connected world_one_peer_eio (default_ip, default_port) a_peer [].

(** ** Further vocabulary *)

(** The calls that release a resource. *)
Definition is_close (e : event) : bool :=
  match e with
  | EvFileClose _ | EvSockClose _ => true
  | _ => false
  end.

(** A step that creates no object, takes no peer from a queue and leaves
    the environment's answers as they are. *)
Definition same_alloc (w w' : World) : Prop :=
  next w' = next w /\ incoming w' = incoming w /\ faults w' = faults w.

Definition same_alloc_st {I} (st st' : St I) : Prop :=
  self st' = self st /\ same_alloc (world st) (world st').

Definition a_second_peer : addr := ("127.0.0.1", 50413%Z).

(** Two peers are about to connect to the default endpoint, and the flush of
    the stream with identity 2 will hit a broken pipe. *)
Definition world_two_peers_broken : World :=
  mkWorld ∅ 0 ∅ {[ (default_ip, default_port) := [a_peer; a_second_peer] ]}
          (broken_pipe 2) [].

Definition listener_two_peers_broken : St TcpServer.t :=
  server_connected world_two_peers_broken (default_ip, default_port) a_peer [a_second_peer].

(** ** Addresses the model covers *)

(** A host made of ASCII characters other than NUL: Python hands it to the
    resolver as it is. *)
Definition host_char_ok (c : ascii) : bool :=
  (0 <? nat_of_ascii c)%nat && (nat_of_ascii c <? 128)%nat.

Fixpoint ascii_host (s : string) : bool :=
  match s with
  | EmptyString => true
  | String c s' => host_char_ok c && ascii_host s'
  end.


(** An accepted address whose port the caller fixes (port 0 leaves the
    choice to the system). *)
Definition fixed_address (ip : string) (port : Z) : Prop :=
  ascii_host ip = true /\ (1 <= port <= 65535)%Z.

(** ** Resources held and released *)

Definition fd_open (w : World) (r : ref) : Prop :=
  exists s, heap w !! r = Some (Sock s) /\ s_fd s = true.

Definition fd_released (w : World) (r : ref) : Prop :=
  exists s, heap w !! r = Some (Sock s) /\ s_fd s = false.

Definition stream_open (w : World) (f : ref) : Prop :=
  exists fo, heap w !! f = Some (File fo) /\ f_closed fo = false.

Definition stream_shut (w : World) (f : ref) : Prop :=
  exists fo, heap w !! f = Some (File fo) /\ f_closed fo = true.

(** * Proofs *)

(** ** Equations of the platform calls *)

Ltac unfold_ops :=
  unfold DataStream_new, TextIO.close,
    Socket.socket, Socket.setsockopt, Socket.bind, Socket.listen, Socket.accept,
    Socket.connect, Socket.close, Socket.real_close, Socket.decref_socketios,
    Socket.makefile, print, require_fd, try_finally,
    bind, ret, raise, block, log, fault, alloc, store,
    get_sock, get_file, set_heap, set_next, set_listening, set_incoming, set_trace.

Lemma socket_eq f t w :
  Socket.socket f t w =
  match faults w AtSocket with
  | Some e => (Raised (OSError e), set_trace (trace w ++ [EvSocket f t]) w)
  | None =>
      (Returned (next w),
       mkWorld (<[next w := Sock Socket.fresh]> (heap w)) (S (next w)) (listening w)
               (incoming w) (faults w) (trace w ++ [EvSocket f t]))
  end.
Proof. unfold_ops; cbn. destruct (faults w AtSocket); reflexivity. Qed.

Lemma setsockopt_reuseaddr_eq r v s w :
  heap w !! r = Some (Sock s) -> s_fd s = true ->
  Socket.setsockopt r SOL_SOCKET SO_REUSEADDR v w =
  match faults w (AtSetsockopt r) with
  | Some e =>
      (Raised (OSError e), set_trace (trace w ++ [EvSetsockopt r SOL_SOCKET SO_REUSEADDR v]) w)
  | None =>
      (Returned tt,
       mkWorld (<[r := Sock (mkSock (s_fd s) (s_closed s) (s_io_refs s) (negb (v =? 0)%Z)
                                    (s_bound s) (s_backlog s) (s_peer s))]> (heap w))
               (next w) (listening w) (incoming w) (faults w)
               (trace w ++ [EvSetsockopt r SOL_SOCKET SO_REUSEADDR v]))
  end.
Proof.
  intros H Hfd. unfold_ops; cbn. rewrite H, Hfd; cbn.
  destruct (faults w (AtSetsockopt r)); reflexivity.
Qed.

Lemma bind_addr_eq r a s w :
  heap w !! r = Some (Sock s) -> s_fd s = true -> s_bound s = None ->
  Socket.bind r a w =
  match faults w (AtBind r) with
  | Some e => (Raised (OSError e), set_trace (trace w ++ [EvBind r a]) w)
  | None =>
      if decide (a ∈ listening w)
      then (Raised (OSError EADDRINUSE), set_trace (trace w ++ [EvBind r a]) w)
      else (Returned tt,
            mkWorld (<[r := Sock (mkSock (s_fd s) (s_closed s) (s_io_refs s) (s_reuseaddr s)
                                         (Some a) (s_backlog s) (s_peer s))]> (heap w))
                    (next w) (listening w) (incoming w) (faults w)
                    (trace w ++ [EvBind r a]))
  end.
Proof.
  intros H Hfd Hb. unfold_ops; cbn. rewrite H, Hfd; cbn.
  destruct (faults w (AtBind r)); [reflexivity|]. cbn.
  destruct (decide (a ∈ listening w)); [reflexivity|]. rewrite Hb. reflexivity.
Qed.

Lemma listen_eq r n a s w :
  heap w !! r = Some (Sock s) -> s_fd s = true -> s_bound s = Some a ->
  Socket.listen r n w =
  match faults w (AtListen r) with
  | Some e => (Raised (OSError e), set_trace (trace w ++ [EvListen r n]) w)
  | None =>
      (Returned tt,
       mkWorld (<[r := Sock (mkSock (s_fd s) (s_closed s) (s_io_refs s) (s_reuseaddr s)
                                    (s_bound s) (Some n) (s_peer s))]> (heap w))
               (next w) ({[a]} ∪ listening w) (incoming w) (faults w)
               (trace w ++ [EvListen r n]))
  end.
Proof.
  intros H Hfd Hb. unfold_ops; cbn. rewrite H, Hfd; cbn.
  destruct (faults w (AtListen r)); [reflexivity|]. cbn. rewrite Hb. reflexivity.
Qed.

Lemma accept_eq r a n s w :
  heap w !! r = Some (Sock s) -> s_fd s = true ->
  s_bound s = Some a -> s_backlog s = Some n ->
  Socket.accept r w =
  match faults w (AtAccept r) with
  | Some e => (Raised (OSError e), set_trace (trace w ++ [EvAccept r]) w)
  | None =>
      match incoming w !! a with
      | Some (peer :: rest) =>
          (Returned (next w, peer),
           mkWorld (<[next w := Sock (mkSock true false 0 false None None (Some peer))]> (heap w))
                   (S (next w)) (listening w) (<[a := rest]> (incoming w)) (faults w)
                   (trace w ++ [EvAccept r]))
      | _ => (Blocked, set_trace (trace w ++ [EvAccept r]) w)
      end
  end.
Proof.
  intros H Hfd Hb Hl. unfold_ops; cbn. rewrite H, Hfd; cbn.
  destruct (faults w (AtAccept r)); [reflexivity|]. cbn. rewrite Hl, Hb. cbn.
  destruct (incoming w !! a) as [[|p q]|]; reflexivity.
Qed.

Lemma connect_eq r a s w :
  heap w !! r = Some (Sock s) -> s_fd s = true ->
  Socket.connect r a w =
  match faults w (AtConnect r) with
  | Some e => (Raised (OSError e), set_trace (trace w ++ [EvConnect r a]) w)
  | None =>
      if decide (a ∈ listening w)
      then (Returned tt,
            mkWorld (<[r := Sock (mkSock (s_fd s) (s_closed s) (s_io_refs s) (s_reuseaddr s)
                                         (s_bound s) (s_backlog s) (Some a))]> (heap w))
                    (next w) (listening w) (incoming w) (faults w)
                    (trace w ++ [EvConnect r a]))
      else (Raised (OSError ECONNREFUSED), set_trace (trace w ++ [EvConnect r a]) w)
  end.
Proof.
  intros H Hfd. unfold_ops; cbn. rewrite H, Hfd; cbn.
  destruct (faults w (AtConnect r)); [reflexivity|]. cbn.
  destruct (decide (a ∈ listening w)); reflexivity.
Qed.

Lemma makefile_rw_eq r s w :
  heap w !! r = Some (Sock s) ->
  Socket.makefile r "rw" "utf-8" w =
  (Returned (next w),
   mkWorld (<[next w := File (mkFile r true true (Some "utf-8") false)]>
              (<[r := Sock (mkSock (s_fd s) (s_closed s) (S (s_io_refs s)) (s_reuseaddr s)
                                   (s_bound s) (s_backlog s) (s_peer s))]> (heap w)))
           (S (next w)) (listening w) (incoming w) (faults w)
           (trace w ++ [EvMakefile r "rw" "utf-8"])).
Proof. intros H. unfold_ops; cbn. rewrite H. reflexivity. Qed.

Lemma datastream_eq f w :
  DataStream_new f w = (Returned (next w), after_get_stream w f).
Proof. reflexivity. Qed.

Lemma sock_close_open_eq r s w :
  heap w !! r = Some (Sock s) -> s_io_refs s = 0 -> s_fd s = true ->
  Socket.close r w = (close_outcome w r, after_sock_close w r s).
Proof.
  intros H Hio Hfd. unfold after_sock_close. unfold_ops; cbn. rewrite H; cbn. rewrite Hio; cbn.
  rewrite lookup_insert_eq; cbn. rewrite Hfd; cbn.
  rewrite insert_insert_eq. unfold close_outcome, unlisten, sock_released. rewrite Hio.
  destruct (s_backlog s), (s_bound s); cbn;
    destruct (faults w (AtClose r)) as [e|]; cbn; try reflexivity;
    destruct (is_ECONNRESET e); reflexivity.
Qed.

Lemma sock_close_again_eq r s w :
  heap w !! r = Some (Sock s) -> s_io_refs s = 0 -> s_fd s = false -> s_closed s = true ->
  Socket.close r w = (Returned tt, set_trace (trace w ++ [EvSockClose r]) w).
Proof.
  intros H Hio Hfd Hc. unfold_ops; cbn. rewrite H; cbn. rewrite Hio; cbn.
  rewrite lookup_insert_eq; cbn. rewrite Hfd; cbn.
  replace (mkSock false true 0 (s_reuseaddr s) (s_bound s) (s_backlog s) (s_peer s)) with s
    by (destruct s; cbn in *; congruence).
  rewrite insert_id by done. reflexivity.
Qed.

Lemma file_close_open_eq f fo s w :
  heap w !! f = Some (File fo) -> f_closed fo = false -> f_writable fo = true ->
  heap w !! f_sock fo = Some (Sock s) -> s_closed s = false -> 0 < s_io_refs s ->
  TextIO.close f w = (flush_outcome w f, after_stream_close w f fo s).
Proof.
  intros H Hc Hw Hs Hsc Hio. unfold after_stream_close.
  assert (f ≠ f_sock fo) as Hne by (intros E; rewrite <- E in Hs; congruence).
  unfold flush_outcome, sock_decref, file_closed.
  destruct fo as [fs fr fw fe fc], s as [sf sc [|k] sr sb sl sp]; cbn in *; [lia|]. subst.
  unfold_ops; cbn. rewrite H; cbn.
  destruct (faults w (AtFlush f)); cbn;
    rewrite lookup_insert_ne by done; rewrite Hs; reflexivity.
Qed.

Lemma file_close_again_eq f fo w :
  heap w !! f = Some (File fo) -> f_closed fo = true ->
  TextIO.close f w = (Returned tt, set_trace (trace w ++ [EvFileClose f]) w).
Proof. intros H Hc. unfold_ops; cbn. rewrite H; cbn. rewrite Hc. reflexivity. Qed.

Ltac simp :=
  cbn [fst snd self world heap next listening incoming faults trace
       set_trace set_heap set_next set_listening set_incoming
       TcpServer.serversock TcpServer.clientsock TcpServer.client_address TcpServer.stream
       TcpServer.set_serversock TcpServer.set_clientsock TcpServer.set_client_address
       TcpServer.set_stream TcpServer.empty
       TcpClient.client TcpClient.stream TcpClient.set_client TcpClient.set_stream
       TcpClient.empty
       s_fd s_closed s_io_refs s_reuseaddr s_bound s_backlog s_peer
       f_sock f_readable f_writable f_encoding f_closed Socket.fresh
       negb Z.eqb].

Ltac simp_all :=
  cbn [fst snd self world heap next listening incoming faults trace
       set_trace set_heap set_next set_listening set_incoming
       TcpServer.serversock TcpServer.clientsock TcpServer.client_address TcpServer.stream
       TcpServer.set_serversock TcpServer.set_clientsock TcpServer.set_client_address
       TcpServer.set_stream TcpServer.empty
       TcpClient.client TcpClient.stream TcpClient.set_client TcpClient.set_stream
       TcpClient.empty
       s_fd s_closed s_io_refs s_reuseaddr s_bound s_backlog s_peer
       f_sock f_readable f_writable f_encoding f_closed Socket.fresh
       negb Z.eqb] in *.

Ltac lk := simp; repeat first [rewrite lookup_insert_eq | rewrite lookup_insert_ne by lia]; reflexivity.

Ltac unfold_m := unfold bind, lift, getattr, setattr, print, log, ret.

Ltac fail_case c :=
  eapply c; eauto; simp; rewrite ?insert_insert_eq, <- ?app_assoc; reflexivity.

Lemma server_init_run ip port w :
  server_init_case ip port w
    (fst (TcpServer.__init__ ip port (mkSt TcpServer.empty w)))
    (snd (TcpServer.__init__ ip port (mkSt TcpServer.empty w))).
Proof.
  unfold TcpServer.__init__. unfold_m. simp.
  rewrite socket_eq. destruct (faults w AtSocket) eqn:F1; simp; [fail_case SI_socket|].
  erewrite setsockopt_reuseaddr_eq by lk. simp.
  destruct (faults w (AtSetsockopt (next w))) eqn:F2; simp; [fail_case SI_setsockopt|].
  erewrite bind_addr_eq by lk. simp.
  destruct (faults w (AtBind (next w))) eqn:F3; simp; [fail_case SI_bind|].
  destruct (decide ((ip, port) ∈ listening w)); simp; [fail_case SI_in_use|].
  erewrite listen_eq by lk. simp.
  destruct (faults w (AtListen (next w))) eqn:F4; simp; [fail_case SI_listen|].
  erewrite accept_eq by lk. simp.
  destruct (faults w (AtAccept (next w))) eqn:F5; simp; [fail_case SI_accept|].
  destruct (incoming w !! (ip, port)) as [[|peer rest]|] eqn:Q; simp;
    [fail_case SI_blocked | | fail_case SI_blocked].
  erewrite makefile_rw_eq by lk. simp.
  rewrite !insert_insert_eq. rewrite <- !app_assoc. cbn [app].
  exact (SI_returned ip port w peer rest F1 F2 F3 F4 F5 n Q).
Qed.

Lemma client_init_run ip port w :
  client_init_case ip port w
    (fst (TcpClient.__init__ ip port (mkSt TcpClient.empty w)))
    (snd (TcpClient.__init__ ip port (mkSt TcpClient.empty w))).
Proof.
  unfold TcpClient.__init__. unfold_m. simp.
  rewrite socket_eq. destruct (faults w AtSocket) eqn:F1; simp; [fail_case CI_socket|].
  erewrite connect_eq by lk. simp.
  destruct (faults w (AtConnect (next w))) eqn:F2; simp; [fail_case CI_connect|].
  destruct (decide ((ip, port) ∈ listening w)); simp; [|fail_case CI_refused].
  erewrite makefile_rw_eq by lk. simp.
  rewrite !insert_insert_eq. rewrite <- !app_assoc. cbn [app].
  exact (CI_returned ip port w F1 F2 e).
Qed.

(** A successful construction ends in the connected state. *)
Lemma server_init_returned ip port w st :
  TcpServer.__init__ ip port (mkSt TcpServer.empty w) = (Returned tt, st) ->
  exists peer rest,
    incoming w !! (ip, port) = Some (peer :: rest) /\
    ((ip, port) ∉ listening w) /\
    st = server_connected w (ip, port) peer rest.
Proof.
  intros H. pose proof (server_init_run ip port w) as R. rewrite H in R.
  inversion R; subst. eauto.
Qed.

Lemma client_init_returned ip port w st :
  TcpClient.__init__ ip port (mkSt TcpClient.empty w) = (Returned tt, st) ->
  ((ip, port) ∈ listening w) /\ st = client_connected w (ip, port).
Proof.
  intros H. pose proof (client_init_run ip port w) as R. rewrite H in R.
  inversion R; subst. eauto.
Qed.

(** ** [close] and [get_stream] on a constructed instance *)

Lemma server_connected_at w a peer rest :
  server_at (server_connected w a peer rest) (next w) (S (next w)) (S (S (next w)))
            (server_sock a) (peer_sock peer) (text_stream (S (next w))).
Proof. unfold server_at, server_connected. repeat split; try lk. simp. lia. Qed.

Lemma client_connected_at w a :
  client_at (client_connected w a) (next w) (S (next w))
            (client_sock a) (text_stream (next w)).
Proof. unfold client_at, client_connected. repeat split; lk. Qed.

Lemma server_at_distinct st ls cs f sl sc fo :
  server_at st ls cs f sl sc fo -> f <> cs /\ f <> ls.
Proof.
  intros (_ & _ & _ & Hl & Hc & Hf & _ & _). split; intros ->; congruence.
Qed.

Lemma client_at_distinct st cs f sc fo : client_at st cs f sc fo -> f <> cs.
Proof. intros (_ & _ & Hc & Hf & _). intros ->; congruence. Qed.

Lemma server_close_open_eq st ls cs f sl sc fo :
  server_at st ls cs f sl sc fo ->
  file_open fo -> sock_streaming sc -> sock_idle sl ->
  TcpServer.close st =
    let w1 := after_stream_close (world st) f fo sc in
    let w2 := after_sock_close w1 cs (sock_decref sc) in
    let w3 := after_sock_close w2 ls sl in
    match flush_outcome (world st) f with
    | Returned _ =>
        match close_outcome (world st) cs with
        | Returned _ => (close_outcome (world st) ls, mkSt (self st) w3)
        | o => (o, mkSt (self st) w2)
        end
    | o => (o, mkSt (self st) w1)
    end.
Proof.
  intros Hat (Hfc & Hfw) (Hcf & Hcc & Hci) (Hlf & Hlc & Hli).
  destruct (server_at_distinct _ _ _ _ _ _ _ Hat) as [Nfc Nfl].
  destruct Hat as (As & Ac & Af & Hl & Hc & Hf & Hfs & Nlc).
  destruct st as [o w]; simp_all.
  unfold TcpServer.close. unfold_m. simp. rewrite Af; simp.
  rewrite (file_close_open_eq f fo sc w) by (rewrite ?Hfs; first [done | lia]).
  destruct (flush_outcome w f) as [[]|e|]; simp; try reflexivity.
  rewrite Ac; simp.
  rewrite (sock_close_open_eq cs (sock_decref sc)); cycle 1.
  { unfold after_stream_close; simp. rewrite Hfs. apply lookup_insert_eq. }
  { unfold sock_decref; simp. by rewrite Hci. }
  { unfold sock_decref; simp. done. }
  change (close_outcome (after_stream_close w f fo sc) cs) with (close_outcome w cs).
  destruct (close_outcome w cs) as [[]|e|]; simp; try reflexivity.
  rewrite As; simp.
  rewrite (sock_close_open_eq ls sl); cycle 1.
  { unfold after_sock_close, after_stream_close; simp. rewrite Hfs.
    rewrite !lookup_insert_ne by done. done. }
  { done. }
  { done. }
  reflexivity.
Qed.

Lemma client_close_open_eq st cs f sc fo :
  client_at st cs f sc fo ->
  file_open fo -> sock_streaming sc ->
  TcpClient.close st =
    let w1 := after_stream_close (world st) f fo sc in
    let w2 := after_sock_close w1 cs (sock_decref sc) in
    match flush_outcome (world st) f with
    | Returned _ => (close_outcome (world st) cs, mkSt (self st) w2)
    | o => (o, mkSt (self st) w1)
    end.
Proof.
  intros Hat (Hfc & Hfw) (Hcf & Hcc & Hci).
  pose proof (client_at_distinct _ _ _ _ _ Hat) as Nfc.
  destruct Hat as (Ac & Af & Hc & Hf & Hfs).
  destruct st as [o w]; simp_all.
  unfold TcpClient.close. unfold_m. simp. rewrite Af; simp.
  rewrite (file_close_open_eq f fo sc w) by (rewrite ?Hfs; first [done | lia]).
  destruct (flush_outcome w f) as [[]|e|]; simp; try reflexivity.
  rewrite Ac; simp.
  rewrite (sock_close_open_eq cs (sock_decref sc)); cycle 1.
  { unfold after_stream_close; simp. rewrite Hfs. apply lookup_insert_eq. }
  { unfold sock_decref; simp. by rewrite Hci. }
  { unfold sock_decref; simp. done. }
  reflexivity.
Qed.

Lemma server_close_again_eq st ls cs f sl sc fo :
  server_at st ls cs f sl sc fo ->
  f_closed fo = true -> sock_gone sc -> sock_gone sl ->
  TcpServer.close st =
    (Returned tt,
     mkSt (self st)
          (set_trace (trace (world st) ++ [EvFileClose f; EvSockClose cs; EvSockClose ls])
                     (world st))).
Proof.
  intros (As & Ac & Af & Hl & Hc & Hf & Hfs & Nlc) Hfc (Hcf & Hcc & Hci) (Hlf & Hlc & Hli).
  destruct st as [o w]; simp_all.
  unfold TcpServer.close. unfold_m. simp. rewrite Af; simp.
  rewrite (file_close_again_eq f fo w) by done. simp. rewrite Ac; simp.
  rewrite (sock_close_again_eq cs sc) by done. simp. rewrite As; simp.
  rewrite (sock_close_again_eq ls sl) by done. simp.
  rewrite <- !app_assoc. reflexivity.
Qed.

Lemma client_close_again_eq st cs f sc fo :
  client_at st cs f sc fo ->
  f_closed fo = true -> sock_gone sc ->
  TcpClient.close st =
    (Returned tt,
     mkSt (self st)
          (set_trace (trace (world st) ++ [EvFileClose f; EvSockClose cs]) (world st))).
Proof.
  intros (Ac & Af & Hc & Hf & Hfs) Hfc (Hcf & Hcc & Hci).
  destruct st as [o w]; simp_all.
  unfold TcpClient.close. unfold_m. simp. rewrite Af; simp.
  rewrite (file_close_again_eq f fo w) by done. simp. rewrite Ac; simp.
  rewrite (sock_close_again_eq cs sc) by done. simp.
  rewrite <- !app_assoc. reflexivity.
Qed.

Lemma server_get_stream_eq st f :
  TcpServer.stream (self st) = Some f ->
  TcpServer.get_stream st =
    (Returned (next (world st)), mkSt (self st) (after_get_stream (world st) f)).
Proof.
  intros Af. unfold TcpServer.get_stream. unfold_m. rewrite Af. reflexivity.
Qed.

Lemma client_get_stream_eq st f :
  TcpClient.stream (self st) = Some f ->
  TcpClient.get_stream st =
    (Returned (next (world st)), mkSt (self st) (after_get_stream (world st) f)).
Proof.
  intros Af. unfold TcpClient.get_stream. unfold_m. rewrite Af. reflexivity.
Qed.



(** * The claims *)

(** C3. A listener that comes out of its constructor has made these calls,
    in this order and no others: create the socket, set [SO_REUSEADDR] to 1
    on it, bind it to [(ip, port)], listen with backlog 1, accept once, and
    wrap the accepted socket in the stream. The accept took exactly the
    oldest queued peer. With no peer queued the constructor never returns,
    and when it is blocked, it is blocked in [accept], before any peer socket
    or stream exists. *)
Theorem server_init_sequence ip port w :
  (forall st,
     TcpServer.__init__ ip port (mkSt TcpServer.empty w) = (Returned tt, st) ->
     exists peer rest,
       incoming w !! (ip, port) = Some (peer :: rest) /\
       incoming (world st) = <[(ip, port) := rest]> (incoming w) /\
       trace (world st) =
         trace w ++
         [EvSocket AF_INET SOCK_STREAM;
          EvSetsockopt (next w) SOL_SOCKET SO_REUSEADDR 1;
          EvBind (next w) (ip, port);
          EvListen (next w) 1;
          EvPrint "Waiting for connections...";
          EvAccept (next w);
          EvMakefile (S (next w)) "rw" "utf-8";
          EvPrint "Connected!"] /\
       self st = TcpServer.mk (Some (next w)) (Some (S (next w))) (Some peer)
                              (Some (S (S (next w)))) /\
       heap (world st) !! next w = Some (Sock (server_sock (ip, port))) /\
       heap (world st) !! S (next w) = Some (Sock (peer_sock peer)) /\
       heap (world st) !! S (S (next w)) = Some (File (text_stream (S (next w))))) /\
  (incoming w !! (ip, port) = None \/ incoming w !! (ip, port) = Some [] ->
   fst (TcpServer.__init__ ip port (mkSt TcpServer.empty w)) <> Returned tt) /\
  (forall st,
     TcpServer.__init__ ip port (mkSt TcpServer.empty w) = (Blocked, st) ->
     trace (world st) =
       trace w ++
       [EvSocket AF_INET SOCK_STREAM;
        EvSetsockopt (next w) SOL_SOCKET SO_REUSEADDR 1;
        EvBind (next w) (ip, port);
        EvListen (next w) 1;
        EvPrint "Waiting for connections...";
        EvAccept (next w)] /\
     TcpServer.clientsock (self st) = None /\ TcpServer.stream (self st) = None).
Proof.
  split; [|split].
  - intros st H. apply server_init_returned in H as (peer & rest & Q & _ & ->).
    exists peer, rest. unfold server_connected. simp.
    repeat split; try done; lk.
  - intros Q E. pose proof (server_init_run ip port w) as R. rewrite E in R.
    inversion R; subst. destruct Q; congruence.
  - intros st H. pose proof (server_init_run ip port w) as R. rewrite H in R. simp_all.
    inversion R; subst.
    repeat match goal with
           | H : self st = _ |- _ => rewrite H; clear H
           | H : trace (world st) = _ |- _ => rewrite H; clear H
           end.
    done.
Qed.

(** C3, at a concrete world: one peer is queued at the default endpoint. *)
Lemma server_init_sequence_witness :
  TcpServer.__init__ default_ip default_port (mkSt TcpServer.empty world_one_peer) =
    (Returned tt, server_connected world_one_peer (default_ip, default_port) a_peer []) /\
  trace (world (server_connected world_one_peer (default_ip, default_port) a_peer [])) =
    [EvSocket AF_INET SOCK_STREAM; EvSetsockopt 0 SOL_SOCKET SO_REUSEADDR 1;
     EvBind 0 (default_ip, default_port); EvListen 0 1;
     EvPrint "Waiting for connections..."; EvAccept 0;
     EvMakefile 1 "rw" "utf-8"; EvPrint "Connected!"].
Proof.
  assert (TcpServer.__init__ default_ip default_port (mkSt TcpServer.empty world_one_peer) =
            (Returned tt, server_connected world_one_peer (default_ip, default_port) a_peer []))
    as E by (vm_compute; reflexivity).
  split; [exact E|].
  destruct (proj1 (server_init_sequence default_ip default_port world_one_peer) _ E)
    as (peer & rest & _ & _ & T & _).
  exact T.
Defined.

(** C9. In both constructors [makefile] is called once, on the connected
    socket (the one [accept] returned, the one [connect] succeeded on), with
    mode [rw] and encoding [utf-8]; the stream it returns is the instance's
    [stream], a text stream over that socket that can be read and written
    and whose encoding is UTF-8. *)
Theorem stream_is_utf8_text_rw ip port w :
  (forall st,
     TcpServer.__init__ ip port (mkSt TcpServer.empty w) = (Returned tt, st) ->
     exists cs f sc fo peer t,
       TcpServer.clientsock (self st) = Some cs /\
       TcpServer.stream (self st) = Some f /\
       TcpServer.client_address (self st) = Some peer /\
       trace (world st) = trace w ++ t /\
       List.filter is_makefile t = [EvMakefile cs "rw" "utf-8"] /\
       heap (world st) !! cs = Some (Sock sc) /\ s_peer sc = Some peer /\
       heap (world st) !! f = Some (File fo) /\
       f_sock fo = cs /\ f_readable fo = true /\ f_writable fo = true /\
       f_encoding fo = Some "utf-8" /\ f_closed fo = false) /\
  (forall st,
     TcpClient.__init__ ip port (mkSt TcpClient.empty w) = (Returned tt, st) ->
     exists cs f sc fo t,
       TcpClient.client (self st) = Some cs /\
       TcpClient.stream (self st) = Some f /\
       trace (world st) = trace w ++ t /\
       List.filter is_makefile t = [EvMakefile cs "rw" "utf-8"] /\
       heap (world st) !! cs = Some (Sock sc) /\ s_peer sc = Some (ip, port) /\
       heap (world st) !! f = Some (File fo) /\
       f_sock fo = cs /\ f_readable fo = true /\ f_writable fo = true /\
       f_encoding fo = Some "utf-8" /\ f_closed fo = false).
Proof.
  split; intros st H.
  - apply server_init_returned in H as (peer & rest & _ & _ & ->).
    exists (S (next w)), (S (S (next w))), (peer_sock peer), (text_stream (S (next w))),
      peer, (server_init_events (next w) (ip, port)).
    unfold server_connected. simp. repeat split; try done; lk.
  - apply client_init_returned in H as (_ & ->).
    exists (next w), (S (next w)), (client_sock (ip, port)), (text_stream (next w)),
      (client_init_events (next w) (ip, port)).
    unfold client_connected. simp. repeat split; try done; lk.
Qed.

(** C9, at concrete worlds: a listener with one peer queued and a connector
    to an endpoint that has a listener. *)
Lemma stream_is_utf8_text_rw_witness :
  (TcpServer.__init__ default_ip default_port (mkSt TcpServer.empty world_one_peer) =
     (Returned tt, listener_ok) /\
   exists cs f sc fo peer t,
     TcpServer.clientsock (self listener_ok) = Some cs /\
     TcpServer.stream (self listener_ok) = Some f /\
     TcpServer.client_address (self listener_ok) = Some peer /\
     trace (world listener_ok) = trace world_one_peer ++ t /\
     List.filter is_makefile t = [EvMakefile cs "rw" "utf-8"] /\
     heap (world listener_ok) !! cs = Some (Sock sc) /\ s_peer sc = Some peer /\
     heap (world listener_ok) !! f = Some (File fo) /\
     f_sock fo = cs /\ f_readable fo = true /\ f_writable fo = true /\
     f_encoding fo = Some "utf-8" /\ f_closed fo = false) /\
  (TcpClient.__init__ default_ip default_port (mkSt TcpClient.empty world_listener) =
     (Returned tt, connector_ok) /\
   exists cs f sc fo t,
     TcpClient.client (self connector_ok) = Some cs /\
     TcpClient.stream (self connector_ok) = Some f /\
     trace (world connector_ok) = trace world_listener ++ t /\
     List.filter is_makefile t = [EvMakefile cs "rw" "utf-8"] /\
     heap (world connector_ok) !! cs = Some (Sock sc) /\
     s_peer sc = Some (default_ip, default_port) /\
     heap (world connector_ok) !! f = Some (File fo) /\
     f_sock fo = cs /\ f_readable fo = true /\ f_writable fo = true /\
     f_encoding fo = Some "utf-8" /\ f_closed fo = false).
Proof.
  assert (TcpServer.__init__ default_ip default_port (mkSt TcpServer.empty world_one_peer) =
            (Returned tt, listener_ok)) as E1 by (vm_compute; reflexivity).
  assert (TcpClient.__init__ default_ip default_port (mkSt TcpClient.empty world_listener) =
            (Returned tt, connector_ok)) as E2 by (vm_compute; reflexivity).
  split; (split; [done|]).
  - exact (proj1 (stream_is_utf8_text_rw default_ip default_port world_one_peer) _ E1).
  - exact (proj2 (stream_is_utf8_text_rw default_ip default_port world_listener) _ E2).
Defined.

(** C5. When another listener holds [(ip, port)], the constructor of a
    listener raises an [OSError]; it does so at [bind] or before, so that
    [accept] and [makefile] are never called, the attributes [clientsock]
    and [stream] are never set and no object other than the listening
    socket is created. When creating the socket and setting its option
    succeed, the error is [EADDRINUSE], raised by [bind]. *)
Theorem bind_address_in_use ip port w :
  (ip, port) ∈ listening w ->
  let r := TcpServer.__init__ ip port (mkSt TcpServer.empty w) in
  (exists e, fst r = Raised (OSError e)) /\
  TcpServer.clientsock (self (snd r)) = None /\
  TcpServer.stream (self (snd r)) = None /\
  (exists k, k <= 3 /\
     trace (world (snd r)) = trace w ++ take k (server_init_events (next w) (ip, port))) /\
  (forall x, x <> next w -> heap (world (snd r)) !! x = heap w !! x) /\
  (faults w AtSocket = None -> faults w (AtSetsockopt (next w)) = None ->
   faults w (AtBind (next w)) = None ->
   fst r = Raised (OSError EADDRINUSE) /\
   trace (world (snd r)) =
     trace w ++ [EvSocket AF_INET SOCK_STREAM;
                 EvSetsockopt (next w) SOL_SOCKET SO_REUSEADDR 1;
                 EvBind (next w) (ip, port)]).
Proof.
  intros L r. subst r. pose proof (server_init_run ip port w) as R.
  destruct (TcpServer.__init__ ip port _) as [o st]. simp_all.
  inversion R; subst; try done;
    repeat match goal with
           | H : self st = _ |- _ => rewrite H; clear H
           | H : heap (world st) = _ |- _ => rewrite H; clear H
           | H : trace (world st) = _ |- _ => rewrite H; clear H
           end;
    (split; [eauto|]); (split; [done|]); (split; [done|]);
    (split; [eexists; split; [|reflexivity]; lia|]);
    (split; [intros x Hx; by rewrite ?lookup_insert_ne by done|]);
    intros; try congruence; done.
Qed.

(** C5, at a concrete world where the default endpoint has a listener. *)
Lemma bind_address_in_use_witness :
  ((default_ip, default_port) ∈ listening world_listener) /\
  fst (TcpServer.__init__ default_ip default_port (mkSt TcpServer.empty world_listener)) =
    Raised (OSError EADDRINUSE).
Proof.
  assert ((default_ip, default_port) ∈ listening world_listener) as L
    by (vm_compute; reflexivity).
  split; [exact L|].
  apply (bind_address_in_use default_ip default_port world_listener L); reflexivity.
Defined.



(** ** Closing a connected instance *)

Lemma server_connected_open a peer :
  file_open (text_stream 0) /\ sock_streaming (peer_sock peer) /\ sock_idle (server_sock a).
Proof. by repeat split. Qed.

(** [close] on the state a listener is constructed in. *)
Lemma server_close_connected w a peer rest :
  let st := server_connected w a peer rest in
  let n := next w in
  let w1 := after_stream_close (world st) (S (S n)) (text_stream (S n)) (peer_sock peer) in
  let w2 := after_sock_close w1 (S n) (sock_decref (peer_sock peer)) in
  let w3 := after_sock_close w2 n (server_sock a) in
  TcpServer.close st =
    match flush_outcome w (S (S n)) with
    | Returned _ =>
        match close_outcome w (S n) with
        | Returned _ => (close_outcome w n, mkSt (self st) w3)
        | o => (o, mkSt (self st) w2)
        end
    | o => (o, mkSt (self st) w1)
    end.
Proof.
  intros st n w1 w2 w3.
  rewrite (server_close_open_eq st _ _ _ _ _ _ (server_connected_at w a peer rest));
    [reflexivity | by repeat split ..].
Qed.

Lemma client_close_connected w a :
  let st := client_connected w a in
  let n := next w in
  let w1 := after_stream_close (world st) (S n) (text_stream n) (client_sock a) in
  let w2 := after_sock_close w1 n (sock_decref (client_sock a)) in
  TcpClient.close st =
    match flush_outcome w (S n) with
    | Returned _ => (close_outcome w n, mkSt (self st) w2)
    | o => (o, mkSt (self st) w1)
    end.
Proof.
  intros st n w1 w2.
  rewrite (client_close_open_eq st _ _ _ _ (client_connected_at w a));
    [reflexivity | by repeat split ..].
Qed.

Ltac heap_lk :=
  unfold after_sock_close, after_stream_close, after_get_stream, set_trace,
    server_connected, client_connected, text_stream,
    server_init_events, client_init_events;
  simp;
  repeat first [rewrite lookup_insert_eq | rewrite lookup_insert_ne by lia];
  rewrite <- ?app_assoc; try reflexivity.

(** Splits on the outcomes of the release steps of a [close] whose result
    is the hypothesis [H]. *)
Ltac close_cases H :=
  cbv zeta in H;
  repeat match type of H with
         | context [match flush_outcome ?w ?f with _ => _ end] =>
             let F := fresh "Flush" in
             destruct (flush_outcome w f) as [[]|?|] eqn:F; cbv beta iota in H
         | context [match close_outcome ?w ?r with _ => _ end] =>
             let C := fresh "Close" in
             destruct (close_outcome w r) as [[]|?|] eqn:C; cbv beta iota in H
         end;
  let Ho := fresh "Hout" in
  let Hs := fresh "Hst" in
  apply pair_equal_spec in H as [Ho Hs];
  first [discriminate Ho | subst].

Lemma server_stream_close_connected w a peer rest :
  lift (TextIO.close (S (S (next w)))) (server_connected w a peer rest) =
    (flush_outcome w (S (S (next w))),
     mkSt (self (server_connected w a peer rest))
          (after_stream_close (world (server_connected w a peer rest)) (S (S (next w)))
                              (text_stream (S (next w))) (peer_sock peer))).
Proof.
  unfold lift.
  rewrite (file_close_open_eq _ (text_stream (S (next w))) (peer_sock peer));
    [reflexivity | first [done | by heap_lk | cbn; lia] ..].
Qed.

Lemma client_stream_close_connected w a :
  lift (TextIO.close (S (next w))) (client_connected w a) =
    (flush_outcome w (S (next w)),
     mkSt (self (client_connected w a))
          (after_stream_close (world (client_connected w a)) (S (next w))
                              (text_stream (next w)) (client_sock a))).
Proof.
  unfold lift.
  rewrite (file_close_open_eq _ (text_stream (next w)) (client_sock a));
    [reflexivity | first [done | by heap_lk | cbn; lia] ..].
Qed.

Lemma server_peer_close_connected w a peer rest (o : TcpServer.t) :
  lift (Socket.close (S (next w)))
       (mkSt o (after_stream_close (world (server_connected w a peer rest)) (S (S (next w)))
                                   (text_stream (S (next w))) (peer_sock peer))) =
    (close_outcome w (S (next w)),
     mkSt o (after_sock_close
               (after_stream_close (world (server_connected w a peer rest)) (S (S (next w)))
                                   (text_stream (S (next w))) (peer_sock peer))
               (S (next w)) (sock_decref (peer_sock peer)))).
Proof.
  unfold lift. simp.
  rewrite (sock_close_open_eq _ (sock_decref (peer_sock peer)));
    [reflexivity | first [done | by heap_lk | cbn; lia] ..].
Qed.

Lemma server_listen_close_connected w a peer rest (o : TcpServer.t) :
  lift (Socket.close (next w))
       (mkSt o (after_sock_close
                  (after_stream_close (world (server_connected w a peer rest))
                                      (S (S (next w))) (text_stream (S (next w)))
                                      (peer_sock peer))
                  (S (next w)) (sock_decref (peer_sock peer)))) =
    (close_outcome w (next w),
     mkSt o (after_sock_close
               (after_sock_close
                  (after_stream_close (world (server_connected w a peer rest))
                                      (S (S (next w))) (text_stream (S (next w)))
                                      (peer_sock peer))
                  (S (next w)) (sock_decref (peer_sock peer)))
               (next w) (server_sock a))).
Proof.
  unfold lift. simp.
  rewrite (sock_close_open_eq _ (server_sock a));
    [reflexivity | first [done | by heap_lk | cbn; lia] ..].
Qed.

Lemma client_sock_close_connected w a (o : TcpClient.t) :
  lift (Socket.close (next w))
       (mkSt o (after_stream_close (world (client_connected w a)) (S (next w))
                                   (text_stream (next w)) (client_sock a))) =
    (close_outcome w (next w),
     mkSt o (after_sock_close
               (after_stream_close (world (client_connected w a)) (S (next w))
                                   (text_stream (next w)) (client_sock a))
               (next w) (sock_decref (client_sock a)))).
Proof.
  unfold lift. simp.
  rewrite (sock_close_open_eq _ (sock_decref (client_sock a)));
    [reflexivity | first [done | by heap_lk | cbn; lia] ..].
Qed.

Ltac held := eexists; split; [by heap_lk | done].

(** What is held and what is released after each step of [close] on a
    constructed listener. *)
Lemma server_close_resources w a peer rest :
  let n := next w in
  let w0 := world (server_connected w a peer rest) in
  let w1 := after_stream_close w0 (S (S n)) (text_stream (S n)) (peer_sock peer) in
  let w2 := after_sock_close w1 (S n) (sock_decref (peer_sock peer)) in
  let w3 := after_sock_close w2 n (server_sock a) in
  (stream_open w0 (S (S n)) /\ fd_open w0 (S n) /\ fd_open w0 n) /\
  (stream_shut w1 (S (S n)) /\ fd_open w1 (S n) /\ fd_open w1 n) /\
  (stream_shut w2 (S (S n)) /\ fd_released w2 (S n) /\ fd_open w2 n /\
   (a ∈ listening w2)) /\
  (stream_shut w3 (S (S n)) /\ fd_released w3 (S n) /\ fd_released w3 n /\
   (a ∉ listening w3)).
Proof.
  intros n w0 w1 w2 w3. subst n w0 w1 w2 w3.
  unfold stream_open, stream_shut, fd_open, fd_released.
  split_and!; try held.
  - unfold after_sock_close, after_stream_close, server_connected, unlisten. cbn.
    apply elem_of_union_l. by apply elem_of_singleton.
  - unfold after_sock_close, after_stream_close, server_connected, unlisten. cbn.
    intros [_ Hx]%elem_of_difference. apply Hx. by apply elem_of_singleton.
Qed.

Lemma client_close_resources w a :
  let n := next w in
  let w0 := world (client_connected w a) in
  let w1 := after_stream_close w0 (S n) (text_stream n) (client_sock a) in
  let w2 := after_sock_close w1 n (sock_decref (client_sock a)) in
  (stream_open w0 (S n) /\ fd_open w0 n) /\
  (stream_shut w1 (S n) /\ fd_open w1 n) /\
  (stream_shut w2 (S n) /\ fd_released w2 n).
Proof.
  intros n w0 w1 w2. subst n w0 w1 w2.
  unfold stream_open, stream_shut, fd_open, fd_released.
  split_and!; held.
Qed.

(** C2 as the code has it. [close] of a constructed listener calls [close]
    on the stream, then on the peer socket, then on the listening socket,
    and stops at the first call that raises: the calls it makes are the
    first [k] of these three, at least the first. When it returns, the three
    resources were released one after the other in this order: after the
    first step the stream is closed while both sockets are still open, after
    the second the descriptor of the peer socket is released while the
    listening socket is still open and holds its address, after the third
    the descriptor of the listening socket is released and the address is
    free. [close] of a constructed connector does the same with the stream
    and then the socket. *)
Theorem close_release_order ip port w :
  (forall st o st',
     TcpServer.__init__ ip port (mkSt TcpServer.empty w) = (Returned tt, st) ->
     TcpServer.close st = (o, st') ->
     exists ls cs f,
       TcpServer.serversock (self st) = Some ls /\
       TcpServer.clientsock (self st) = Some cs /\
       TcpServer.stream (self st) = Some f /\
       (stream_open (world st) f /\ fd_open (world st) cs /\ fd_open (world st) ls) /\
       (exists k,
          1 <= k <= 3 /\
          trace (world st') =
            trace (world st) ++ take k [EvFileClose f; EvSockClose cs; EvSockClose ls] /\
          (o = Returned tt -> k = 3)) /\
       (o = Returned tt ->
        exists st1 st2,
          lift (TextIO.close f) st = (Returned tt, st1) /\
          lift (Socket.close cs) st1 = (Returned tt, st2) /\
          lift (Socket.close ls) st2 = (Returned tt, st') /\
          (stream_shut (world st1) f /\ fd_open (world st1) cs /\
           fd_open (world st1) ls) /\
          (stream_shut (world st2) f /\ fd_released (world st2) cs /\
           fd_open (world st2) ls /\ ((ip, port) ∈ listening (world st2))) /\
          (stream_shut (world st') f /\ fd_released (world st') cs /\
           fd_released (world st') ls /\ ((ip, port) ∉ listening (world st'))))) /\
  (forall st o st',
     TcpClient.__init__ ip port (mkSt TcpClient.empty w) = (Returned tt, st) ->
     TcpClient.close st = (o, st') ->
     exists cs f,
       TcpClient.client (self st) = Some cs /\
       TcpClient.stream (self st) = Some f /\
       (stream_open (world st) f /\ fd_open (world st) cs) /\
       (exists k,
          1 <= k <= 2 /\
          trace (world st') = trace (world st) ++ take k [EvFileClose f; EvSockClose cs] /\
          (o = Returned tt -> k = 2)) /\
       (o = Returned tt ->
        exists st1,
          lift (TextIO.close f) st = (Returned tt, st1) /\
          lift (Socket.close cs) st1 = (Returned tt, st') /\
          (stream_shut (world st1) f /\ fd_open (world st1) cs) /\
          (stream_shut (world st') f /\ fd_released (world st') cs))).
Proof.
  split; intros st o st' Hi Hc.
  - apply server_init_returned in Hi as (peer & rest & _ & _ & ->).
    pose proof (server_close_resources w (ip, port) peer rest) as (R0 & R1 & R2 & R3).
    pose proof (server_stream_close_connected w (ip, port) peer rest) as E1.
    pose proof (server_peer_close_connected w (ip, port) peer rest
                  (self (server_connected w (ip, port) peer rest))) as E2.
    pose proof (server_listen_close_connected w (ip, port) peer rest
                  (self (server_connected w (ip, port) peer rest))) as E3.
    rewrite server_close_connected in Hc.
    exists (next w), (S (next w)), (S (S (next w))).
    split; [done|]. split; [done|]. split; [done|]. split; [exact R0|].
    close_cases Hc.
    + split.
      * exists 3. split_and!; first [done | lia | by heap_lk].
      * intros Hl. rewrite ?Flush in E1. rewrite ?Close0 in E2. rewrite Hl in E3.
        eexists _, _. split; [exact E1|]. split; [exact E2|]. split; [exact E3|].
        split; [exact R1|]. split; [exact R2 | exact R3].
    + split; [exists 2; split_and!; first [lia | intros [=] | by heap_lk] | intros [=]].
    + split; [exists 2; split_and!; first [lia | intros [=] | by heap_lk] | intros [=]].
    + split; [exists 1; split_and!; first [lia | intros [=] | by heap_lk] | intros [=]].
    + split; [exists 1; split_and!; first [lia | intros [=] | by heap_lk] | intros [=]].
  - apply client_init_returned in Hi as (_ & ->).
    pose proof (client_close_resources w (ip, port)) as (R0 & R1 & R2).
    pose proof (client_stream_close_connected w (ip, port)) as E1.
    pose proof (client_sock_close_connected w (ip, port)
                  (self (client_connected w (ip, port)))) as E2.
    rewrite client_close_connected in Hc.
    exists (next w), (S (next w)).
    split; [done|]. split; [done|]. split; [exact R0|].
    close_cases Hc.
    + split.
      * exists 2. split_and!; first [done | lia | by heap_lk].
      * intros Hl. rewrite ?Flush in E1. rewrite Hl in E2.
        eexists. split; [exact E1|]. split; [exact E2|].
        split; [exact R1 | exact R2].
    + split; [exists 1; split_and!; first [lia | intros [=] | by heap_lk] | intros [=]].
    + split; [exists 1; split_and!; first [lia | intros [=] | by heap_lk] | intros [=]].
Qed.

(** C2 as the code has it, at a concrete world: the listener constructed
    with one peer queued is closed; the stream (identity 2), the peer socket
    (identity 1) and the listening socket (identity 0) are released. *)
Lemma close_release_order_witness :
  TcpServer.__init__ default_ip default_port (mkSt TcpServer.empty world_one_peer) =
    (Returned tt, listener_ok) /\
  TcpServer.close listener_ok = (Returned tt, snd (TcpServer.close listener_ok)) /\
  stream_shut (world (snd (TcpServer.close listener_ok))) 2 /\
  fd_released (world (snd (TcpServer.close listener_ok))) 1 /\
  fd_released (world (snd (TcpServer.close listener_ok))) 0.
Proof.
  assert (TcpServer.__init__ default_ip default_port (mkSt TcpServer.empty world_one_peer) =
            (Returned tt, listener_ok)) as E by (vm_compute; reflexivity).
  assert (TcpServer.close listener_ok = (Returned tt, snd (TcpServer.close listener_ok)))
    as Ec by (vm_compute; reflexivity).
  split; [exact E|]. split; [exact Ec|].
  destruct (proj1 (close_release_order default_ip default_port world_one_peer) _ _ _ E Ec)
    as (ls & cs & f & Al & Ac & Af & _ & _ & Hb).
  assert (ls = 0) as -> by (vm_compute in Al; congruence).
  assert (cs = 1) as -> by (vm_compute in Ac; congruence).
  assert (f = 2) as -> by (vm_compute in Af; congruence).
  destruct (Hb eq_refl) as (st1 & st2 & _ & _ & _ & _ & _ & Hs & Hc & Hl & _).
  split; [exact Hs|]. split; [exact Hc | exact Hl].
Defined.

(** C2 as the spec states it fails. A listener is constructed at the default
    endpoint with two peers on their way; the first peer goes away, so that
    flushing the stream fails with [EPIPE]. [close] raises after its first
    step and releases one resource only: the stream (identity 2) is closed,
    the peer socket (identity 1) and the listening socket (identity 0) keep
    their descriptors, and the address is still held. *)
Lemma close_releases_stream_only :
  TcpServer.__init__ default_ip default_port (mkSt TcpServer.empty world_two_peers_broken) =
    (Returned tt, listener_two_peers_broken) /\
  self listener_two_peers_broken = TcpServer.mk (Some 0) (Some 1) (Some a_peer) (Some 2) /\
  fst (TcpServer.close listener_two_peers_broken) = Raised (OSError EPIPE) /\
  trace (world (snd (TcpServer.close listener_two_peers_broken))) =
    trace (world listener_two_peers_broken) ++ [EvFileClose 2] /\
  heap (world (snd (TcpServer.close listener_two_peers_broken))) !! 2 =
    Some (File (mkFile 1 true true (Some "utf-8") true)) /\
  heap (world (snd (TcpServer.close listener_two_peers_broken))) !! 1 =
    Some (Sock (mkSock true false 0 false None None (Some a_peer))) /\
  heap (world (snd (TcpServer.close listener_two_peers_broken))) !! 0 =
    Some (Sock (mkSock true false 0 true (Some (default_ip, default_port)) (Some 1%Z) None)) /\
  ((default_ip, default_port) ∈
     listening (world (snd (TcpServer.close listener_two_peers_broken)))).
Proof. split_and!; vm_compute; reflexivity. Qed.

(** C1 as the code has it. When a release step of [close] raises, the
    exception leaves [close] at once and the later release steps are not
    attempted. For a constructed listener: if closing the stream raises,
    [close] ends there, only the call on the stream was made, and the peer
    socket and the listening socket are still open; if closing the peer
    socket raises, [close] ends there and the listening socket is still
    open. For a constructed connector: if closing the stream raises,
    [close] ends there and the socket is still open. *)
Theorem close_stops_at_first_failure ip port w :
  (forall st,
     TcpServer.__init__ ip port (mkSt TcpServer.empty w) = (Returned tt, st) ->
     exists ls cs f,
       TcpServer.serversock (self st) = Some ls /\
       TcpServer.clientsock (self st) = Some cs /\
       TcpServer.stream (self st) = Some f /\
       (forall e st1,
          lift (TextIO.close f) st = (Raised e, st1) ->
          TcpServer.close st = (Raised e, st1) /\
          trace (world st1) = trace (world st) ++ [EvFileClose f] /\
          (exists sc, heap (world st1) !! cs = Some (Sock sc) /\
                      s_fd sc = true /\ s_closed sc = false) /\
          (exists sl, heap (world st1) !! ls = Some (Sock sl) /\
                      s_fd sl = true /\ s_closed sl = false)) /\
       (forall st1 e st2,
          lift (TextIO.close f) st = (Returned tt, st1) ->
          lift (Socket.close cs) st1 = (Raised e, st2) ->
          TcpServer.close st = (Raised e, st2) /\
          trace (world st2) = trace (world st) ++ [EvFileClose f; EvSockClose cs] /\
          (exists sl, heap (world st2) !! ls = Some (Sock sl) /\
                      s_fd sl = true /\ s_closed sl = false))) /\
  (forall st,
     TcpClient.__init__ ip port (mkSt TcpClient.empty w) = (Returned tt, st) ->
     exists cs f,
       TcpClient.client (self st) = Some cs /\
       TcpClient.stream (self st) = Some f /\
       (forall e st1,
          lift (TextIO.close f) st = (Raised e, st1) ->
          TcpClient.close st = (Raised e, st1) /\
          trace (world st1) = trace (world st) ++ [EvFileClose f] /\
          (exists sc, heap (world st1) !! cs = Some (Sock sc) /\
                      s_fd sc = true /\ s_closed sc = false))).
Proof.
  split; intros st Hi.
  - apply server_init_returned in Hi as (peer & rest & _ & _ & ->).
    exists (next w), (S (next w)), (S (S (next w))).
    split_and!; try done.
    + intros e st1 H. rewrite server_stream_close_connected in H.
      apply pair_equal_spec in H as [Hf <-]. rewrite server_close_connected. cbv zeta. rewrite Hf.
      split_and!; [done | heap_lk | |].
      * exists (sock_decref (peer_sock peer)). split_and!; [heap_lk | done | done].
      * exists (server_sock (ip, port)). split_and!; [heap_lk | done | done].
    + intros st1 e st2 H1 H2. rewrite server_stream_close_connected in H1.
      apply pair_equal_spec in H1 as [Hf <-]. rewrite server_peer_close_connected in H2.
      apply pair_equal_spec in H2 as [Hc <-]. rewrite server_close_connected. cbv zeta. rewrite Hf, Hc.
      split_and!; [done | heap_lk |].
      exists (server_sock (ip, port)). split_and!; [heap_lk | done | done].
  - apply client_init_returned in Hi as (_ & ->).
    exists (next w), (S (next w)).
    split_and!; try done.
    intros e st1 H. rewrite client_stream_close_connected in H.
    apply pair_equal_spec in H as [Hf <-]. rewrite client_close_connected. cbv zeta. rewrite Hf.
    split_and!; [done | heap_lk |].
    exists (sock_decref (client_sock (ip, port))). split_and!; [heap_lk | done | done].
Qed.

(** C1 as the code has it, at two concrete worlds: the flush of the
    listener's stream hits a broken pipe; the system call closing the peer
    socket fails with [EIO]. *)
Lemma close_stops_at_first_failure_witness :
  (TcpServer.__init__ default_ip default_port (mkSt TcpServer.empty world_one_peer_broken) =
     (Returned tt, listener_broken) /\
   lift (TextIO.close 2) listener_broken =
     (Raised (OSError EPIPE), snd (lift (TextIO.close 2) listener_broken)) /\
   TcpServer.close listener_broken =
     (Raised (OSError EPIPE), snd (lift (TextIO.close 2) listener_broken))) /\
  (TcpServer.__init__ default_ip default_port (mkSt TcpServer.empty world_one_peer_eio) =
     (Returned tt, listener_eio) /\
   lift (TextIO.close 2) listener_eio =
     (Returned tt, snd (lift (TextIO.close 2) listener_eio)) /\
   lift (Socket.close 1) (snd (lift (TextIO.close 2) listener_eio)) =
     (Raised (OSError EIO),
      snd (lift (Socket.close 1) (snd (lift (TextIO.close 2) listener_eio)))) /\
   TcpServer.close listener_eio =
     (Raised (OSError EIO),
      snd (lift (Socket.close 1) (snd (lift (TextIO.close 2) listener_eio))))).
Proof.
  split.
  - assert (TcpServer.__init__ default_ip default_port
              (mkSt TcpServer.empty world_one_peer_broken) =
              (Returned tt, listener_broken)) as E by (vm_compute; reflexivity).
    assert (lift (TextIO.close 2) listener_broken =
              (Raised (OSError EPIPE), snd (lift (TextIO.close 2) listener_broken))) as E1
      by (vm_compute; reflexivity).
    split; [exact E|]. split; [exact E1|].
    destruct (proj1 (close_stops_at_first_failure default_ip default_port
                       world_one_peer_broken) _ E)
      as (ls & cs & f & _ & _ & Af & Hs & _).
    assert (f = 2) as -> by (vm_compute in Af; congruence).
    exact (proj1 (Hs _ _ E1)).
  - assert (TcpServer.__init__ default_ip default_port
              (mkSt TcpServer.empty world_one_peer_eio) =
              (Returned tt, listener_eio)) as E by (vm_compute; reflexivity).
    assert (lift (TextIO.close 2) listener_eio =
              (Returned tt, snd (lift (TextIO.close 2) listener_eio))) as E1
      by (vm_compute; reflexivity).
    assert (lift (Socket.close 1) (snd (lift (TextIO.close 2) listener_eio)) =
              (Raised (OSError EIO),
               snd (lift (Socket.close 1) (snd (lift (TextIO.close 2) listener_eio)))))
      as E2 by (vm_compute; reflexivity).
    split; [exact E|]. split; [exact E1|]. split; [exact E2|].
    destruct (proj1 (close_stops_at_first_failure default_ip default_port
                       world_one_peer_eio) _ E)
      as (ls & cs & f & _ & Ac & Af & _ & Hp).
    assert (f = 2) as -> by (vm_compute in Af; congruence).
    assert (cs = 1) as -> by (vm_compute in Ac; congruence).
    exact (proj1 (Hp _ _ _ E1 E2)).
Defined.

(** C1 as the spec states it fails. A listener is constructed with one peer;
    the peer goes away, so that flushing the stream fails with [EPIPE].
    [close] raises that error after its first step: [close] is called
    neither on the peer socket (identity 1) nor on the listening socket
    (identity 0), and both descriptors stay open. *)
Lemma close_not_best_effort :
  TcpServer.__init__ default_ip default_port (mkSt TcpServer.empty world_one_peer_broken) =
    (Returned tt, listener_broken) /\
  self listener_broken = TcpServer.mk (Some 0) (Some 1) (Some a_peer) (Some 2) /\
  fst (TcpServer.close listener_broken) = Raised (OSError EPIPE) /\
  trace (world (snd (TcpServer.close listener_broken))) =
    trace (world listener_broken) ++ [EvFileClose 2] /\
  ~ In (EvSockClose 1) (trace (world (snd (TcpServer.close listener_broken)))) /\
  ~ In (EvSockClose 0) (trace (world (snd (TcpServer.close listener_broken)))) /\
  heap (world (snd (TcpServer.close listener_broken))) !! 1 =
    Some (Sock (mkSock true false 0 false None None (Some a_peer))) /\
  heap (world (snd (TcpServer.close listener_broken))) !! 0 =
    Some (Sock (mkSock true false 0 true (Some (default_ip, default_port)) (Some 1%Z) None)).
Proof.
  split_and!; try (vm_compute; reflexivity);
    vm_compute; intros H; repeat (destruct H as [H|H]; [discriminate H|]); exact H.
Qed.

(** C8 as the code has it. When the first [close] of a constructed instance
    returns, every resource of the instance is released: the stream is
    closed, the descriptor of each socket is released, and the listening
    address is free again. A second [close] then returns as well and changes
    neither the instance nor any object. *)
Theorem close_twice ip port w :
  (forall st st1,
     TcpServer.__init__ ip port (mkSt TcpServer.empty w) = (Returned tt, st) ->
     TcpServer.close st = (Returned tt, st1) ->
     self st1 = self st /\
     (exists ls cs f sl sc fo,
        server_at st1 ls cs f sl sc fo /\
        f_closed fo = true /\ sock_gone sc /\ sock_gone sl) /\
     ((ip, port) ∉ listening (world st1)) /\
     exists st2,
       TcpServer.close st1 = (Returned tt, st2) /\
       self st2 = self st1 /\
       heap (world st2) = heap (world st1) /\
       listening (world st2) = listening (world st1)) /\
  (forall st st1,
     TcpClient.__init__ ip port (mkSt TcpClient.empty w) = (Returned tt, st) ->
     TcpClient.close st = (Returned tt, st1) ->
     self st1 = self st /\
     (exists cs f sc fo,
        client_at st1 cs f sc fo /\ f_closed fo = true /\ sock_gone sc) /\
     exists st2,
       TcpClient.close st1 = (Returned tt, st2) /\
       self st2 = self st1 /\
       heap (world st2) = heap (world st1) /\
       listening (world st2) = listening (world st1)).
Proof.
  split; intros st st1 Hi Hc.
  - apply server_init_returned in Hi as (peer & rest & _ & Hn & ->).
    rewrite server_close_connected in Hc. close_cases Hc.
    match goal with
    | |- context [mkSt ?o ?x] => set (st1 := mkSt o x)
    end.
    assert (server_at st1 (next w) (S (next w)) (S (S (next w)))
              (sock_released (server_sock (ip, port)))
              (sock_released (sock_decref (peer_sock peer)))
              (file_closed (text_stream (S (next w))))) as Hat.
    { subst st1. unfold server_at. split_and!; first [done | by heap_lk | simp; lia]. }
    split_and!; [done | | |].
    + eexists _, _, _, _, _, _. split; [exact Hat|]. by repeat split.
    + subst st1. unfold after_sock_close, after_stream_close, server_connected, unlisten.
      cbn. intros [_ Hx]%elem_of_difference. apply Hx. by apply elem_of_singleton.
    + rewrite (server_close_again_eq st1 _ _ _ _ _ _ Hat); [|by repeat split ..].
      eexists; split_and!; reflexivity.
  - apply client_init_returned in Hi as (_ & ->).
    rewrite client_close_connected in Hc. close_cases Hc.
    match goal with
    | |- context [mkSt ?o ?x] => set (st1 := mkSt o x)
    end.
    assert (client_at st1 (next w) (S (next w))
              (sock_released (sock_decref (client_sock (ip, port))))
              (file_closed (text_stream (next w)))) as Hat.
    { subst st1. unfold client_at. split_and!; try done; by heap_lk. }
    split_and!; [done | |].
    + eexists _, _, _, _. split; [exact Hat|]. by repeat split.
    + rewrite (client_close_again_eq st1 _ _ _ _ Hat); [|by repeat split ..].
      eexists; split_and!; reflexivity.
Qed.

(** C8 as the code has it, at a concrete world: the listener constructed
    with one peer queued is closed twice. *)
Lemma close_twice_witness :
  TcpServer.__init__ default_ip default_port (mkSt TcpServer.empty world_one_peer) =
    (Returned tt, listener_ok) /\
  TcpServer.close listener_ok = (Returned tt, snd (TcpServer.close listener_ok)) /\
  fst (TcpServer.close (snd (TcpServer.close listener_ok))) = Returned tt.
Proof.
  assert (TcpServer.__init__ default_ip default_port (mkSt TcpServer.empty world_one_peer) =
            (Returned tt, listener_ok)) as E by (vm_compute; reflexivity).
  assert (TcpServer.close listener_ok = (Returned tt, snd (TcpServer.close listener_ok)))
    as Ec by (vm_compute; reflexivity).
  split; [exact E|]. split; [exact Ec|].
  destruct (proj1 (close_twice default_ip default_port world_one_peer) _ _ E Ec)
    as (_ & _ & _ & st2 & H2 & _).
  rewrite H2. reflexivity.
Defined.

(** C8 as the spec states it fails. A connector is constructed; the peer
    goes away, so that flushing the stream fails with [EPIPE]. The first
    [close] raises that error after closing the stream only: [close] is not
    called on the socket (identity 0), whose descriptor stays open. *)
Lemma first_close_may_leak :
  TcpClient.__init__ default_ip default_port (mkSt TcpClient.empty world_listener_broken) =
    (Returned tt, connector_broken) /\
  self connector_broken = TcpClient.mk (Some 0) (Some 1) /\
  fst (TcpClient.close connector_broken) = Raised (OSError EPIPE) /\
  trace (world (snd (TcpClient.close connector_broken))) =
    trace (world connector_broken) ++ [EvFileClose 1] /\
  heap (world (snd (TcpClient.close connector_broken))) !! 0 =
    Some (Sock (mkSock true false 0 false None None (Some (default_ip, default_port)))).
Proof. split_and!; vm_compute; reflexivity. Qed.

(** C10. Whatever the outcome of [close] on a constructed instance, the
    attributes of the instance are what they were. A call of [get_stream]
    after it returns a newly allocated adapter, distinct from the stream and
    the sockets, that wraps the stream object made by the constructor; that
    object is now closed. *)
Theorem get_stream_after_close ip port w :
  (forall st o st1,
     TcpServer.__init__ ip port (mkSt TcpServer.empty w) = (Returned tt, st) ->
     TcpServer.close st = (o, st1) ->
     self st1 = self st /\
     exists ls cs f fo,
       TcpServer.serversock (self st) = Some ls /\
       TcpServer.clientsock (self st) = Some cs /\
       TcpServer.stream (self st) = Some f /\
       heap (world st) !! f = Some (File fo) /\ f_closed fo = false /\
       heap (world st1) !! f = Some (File (file_closed fo)) /\
       exists st2,
         TcpServer.get_stream st1 = (Returned (next (world st1)), st2) /\
         heap (world st2) !! next (world st1) = Some (DataStream f) /\
         heap (world st2) !! f = Some (File (file_closed fo)) /\
         next (world st1) <> f /\ next (world st1) <> cs /\ next (world st1) <> ls /\
         self st2 = self st) /\
  (forall st o st1,
     TcpClient.__init__ ip port (mkSt TcpClient.empty w) = (Returned tt, st) ->
     TcpClient.close st = (o, st1) ->
     self st1 = self st /\
     exists cs f fo,
       TcpClient.client (self st) = Some cs /\
       TcpClient.stream (self st) = Some f /\
       heap (world st) !! f = Some (File fo) /\ f_closed fo = false /\
       heap (world st1) !! f = Some (File (file_closed fo)) /\
       exists st2,
         TcpClient.get_stream st1 = (Returned (next (world st1)), st2) /\
         heap (world st2) !! next (world st1) = Some (DataStream f) /\
         heap (world st2) !! f = Some (File (file_closed fo)) /\
         next (world st1) <> f /\ next (world st1) <> cs /\
         self st2 = self st).
Proof.
  split; intros st o st1 Hi Hc.
  - apply server_init_returned in Hi as (peer & rest & _ & _ & ->).
    rewrite server_close_connected in Hc.
    close_cases Hc;
      (split; [done|]);
      exists (next w), (S (next w)), (S (S (next w))), (text_stream (S (next w)));
      (split_and!; try first [done | by heap_lk]);
      rewrite (server_get_stream_eq _ (S (S (next w)))) by done;
      eexists; (split_and!; first [done | by heap_lk | heap_lk; lia]).
  - apply client_init_returned in Hi as (_ & ->).
    rewrite client_close_connected in Hc.
    close_cases Hc;
      (split; [done|]);
      exists (next w), (S (next w)), (text_stream (next w));
      (split_and!; try first [done | by heap_lk]);
      rewrite (client_get_stream_eq _ (S (next w))) by done;
      eexists; (split_and!; first [done | by heap_lk | heap_lk; lia]).
Qed.

(** C10, at a concrete world: the listener whose [close] raised on a broken
    pipe still hands out an adapter over its stream. *)
Lemma get_stream_after_close_witness :
  TcpServer.__init__ default_ip default_port (mkSt TcpServer.empty world_one_peer_broken) =
    (Returned tt, listener_broken) /\
  self (snd (TcpServer.close listener_broken)) = self listener_broken /\
  fst (TcpServer.get_stream (snd (TcpServer.close listener_broken))) = Returned 3.
Proof.
  assert (TcpServer.__init__ default_ip default_port
            (mkSt TcpServer.empty world_one_peer_broken) =
            (Returned tt, listener_broken)) as E by (vm_compute; reflexivity).
  split; [exact E|].
  destruct (proj1 (get_stream_after_close default_ip default_port world_one_peer_broken)
              _ _ _ E (surjective_pairing _))
    as (Hs & ls & cs & f & fo & _ & _ & _ & _ & _ & _ & st2 & Hg & _).
  split; [exact Hs|]. rewrite Hg. reflexivity.
Defined.

(** ** Repeated calls of [get_stream] *)

Section Times.
Context {I : Type} (m : M (St I) ref) (f : ref) (P : I -> Prop).
Hypothesis m_eq : forall st,
  P (self st) ->
  m st = (Returned (next (world st)), mkSt (self st) (after_get_stream (world st) f)).

Lemma times_get_stream n : forall st,
  P (self st) ->
  exists st',
    times n m st = (Returned (seq (next (world st)) n), st') /\
    self st' = self st /\
    next (world st') = n + next (world st) /\
    (forall r, r < next (world st) -> heap (world st') !! r = heap (world st) !! r) /\
    (forall r, r ∈ seq (next (world st)) n -> heap (world st') !! r = Some (DataStream f)) /\
    trace (world st') = trace (world st) ++ replicate n (EvDataStream f).
Proof.
  induction n as [|k IH]; intros st HP.
  - exists st. cbn. split_and!; try done.
    + intros r Hr. inversion Hr.
    + by rewrite app_nil_r.
  - destruct (IH (mkSt (self st) (after_get_stream (world st) f)) HP)
      as (st' & Ht & Hs & Hn & Hfr & Hall & Htr).
    exists st'. cbn [times]. unfold bind at 1. rewrite (m_eq st HP).
    unfold bind at 1. simp_all. rewrite Ht. unfold ret.
    split_and!.
    + reflexivity.
    + exact Hs.
    + rewrite Hn. unfold after_get_stream; simp. lia.
    + intros r Hr. rewrite Hfr by (unfold after_get_stream; simp; lia).
      unfold after_get_stream; simp. by rewrite lookup_insert_ne by lia.
    + intros r Hr. cbn [seq] in Hr. apply elem_of_cons in Hr as [->|Hr].
      * rewrite Hfr by (unfold after_get_stream; simp; lia).
        unfold after_get_stream; simp. apply lookup_insert_eq.
      * apply Hall. exact Hr.
    + rewrite Htr. unfold after_get_stream; simp. by rewrite <- app_assoc.
Qed.

End Times.

(** C4. On a constructed instance, any number [n] of calls of [get_stream]
    all return: they give [n] distinct adapters, each wrapping the stream
    object the constructor stored in [stream], which is the stream over the
    connected socket. The calls leave the attributes of the instance, the
    stream object and the socket as they were, and call nothing but the
    constructor of the adapter. *)
Theorem get_stream_same_connection ip port w n :
  (forall st,
     TcpServer.__init__ ip port (mkSt TcpServer.empty w) = (Returned tt, st) ->
     exists cs f fo rs st',
       TcpServer.clientsock (self st) = Some cs /\
       TcpServer.stream (self st) = Some f /\
       heap (world st) !! f = Some (File fo) /\ f_sock fo = cs /\
       times n TcpServer.get_stream st = (Returned rs, st') /\
       length rs = n /\ NoDup rs /\
       (forall r, r ∈ rs -> heap (world st') !! r = Some (DataStream f)) /\
       self st' = self st /\
       heap (world st') !! f = heap (world st) !! f /\
       heap (world st') !! cs = heap (world st) !! cs /\
       trace (world st') = trace (world st) ++ replicate n (EvDataStream f)) /\
  (forall st,
     TcpClient.__init__ ip port (mkSt TcpClient.empty w) = (Returned tt, st) ->
     exists cs f fo rs st',
       TcpClient.client (self st) = Some cs /\
       TcpClient.stream (self st) = Some f /\
       heap (world st) !! f = Some (File fo) /\ f_sock fo = cs /\
       times n TcpClient.get_stream st = (Returned rs, st') /\
       length rs = n /\ NoDup rs /\
       (forall r, r ∈ rs -> heap (world st') !! r = Some (DataStream f)) /\
       self st' = self st /\
       heap (world st') !! f = heap (world st) !! f /\
       heap (world st') !! cs = heap (world st) !! cs /\
       trace (world st') = trace (world st) ++ replicate n (EvDataStream f)).
Proof.
  split; intros st Hi.
  - apply server_init_returned in Hi as (peer & rest & _ & _ & ->).
    destruct (times_get_stream TcpServer.get_stream (S (S (next w)))
                (fun o => TcpServer.stream o = Some (S (S (next w))))
                (fun st H => server_get_stream_eq st _ H) n
                (server_connected w (ip, port) peer rest) eq_refl)
      as (st' & Ht & Hs & Hn & Hfr & Hall & Htr).
    exists (S (next w)), (S (S (next w))), (text_stream (S (next w))),
      (seq (next (world (server_connected w (ip, port) peer rest))) n), st'.
    split_and!; try done; try by heap_lk.
    + by rewrite length_seq.
    + apply NoDup_seq.
    + apply Hfr. unfold server_connected, client_connected; simp. lia.
    + apply Hfr. unfold server_connected, client_connected; simp. lia.
  - apply client_init_returned in Hi as (_ & ->).
    destruct (times_get_stream TcpClient.get_stream (S (next w))
                (fun o => TcpClient.stream o = Some (S (next w)))
                (fun st H => client_get_stream_eq st _ H) n
                (client_connected w (ip, port)) eq_refl)
      as (st' & Ht & Hs & Hn & Hfr & Hall & Htr).
    exists (next w), (S (next w)), (text_stream (next w)),
      (seq (next (world (client_connected w (ip, port)))) n), st'.
    split_and!; try done; try by heap_lk.
    + by rewrite length_seq.
    + apply NoDup_seq.
    + apply Hfr. unfold server_connected, client_connected; simp. lia.
    + apply Hfr. unfold server_connected, client_connected; simp. lia.
Qed.

(** C4, at a concrete world: three calls on the listener constructed with
    one peer queued. *)
Lemma get_stream_same_connection_witness :
  TcpServer.__init__ default_ip default_port (mkSt TcpServer.empty world_one_peer) =
    (Returned tt, listener_ok) /\
  fst (times 3 TcpServer.get_stream listener_ok) = Returned [3; 4; 5] /\
  forall r, r ∈ [3; 4; 5] ->
    heap (world (snd (times 3 TcpServer.get_stream listener_ok))) !! r = Some (DataStream 2).
Proof.
  assert (TcpServer.__init__ default_ip default_port (mkSt TcpServer.empty world_one_peer) =
            (Returned tt, listener_ok)) as E by (vm_compute; reflexivity).
  split; [exact E|].
  destruct (proj1 (get_stream_same_connection default_ip default_port world_one_peer 3) _ E)
    as (cs & f & fo & rs & st' & _ & Af & _ & _ & Ht & _ & _ & Hall & _).
  assert (f = 2) as -> by (vm_compute in Af; congruence).
  rewrite Ht. cbn [fst snd].
  assert (rs = [3; 4; 5]) as -> by (vm_compute in Ht; congruence).
  split; [reflexivity | exact Hall].
Defined.

(** ** Steps that establish no connection *)

Section Respects.
Context {S : Type} (R : S -> S -> Prop).
Hypothesis R_refl : forall s, R s s.
Hypothesis R_trans : forall s1 s2 s3, R s1 s2 -> R s2 s3 -> R s1 s3.

Lemma respects_ret {A} (a : A) : respects R (ret a).
Proof. intros s. apply R_refl. Qed.

Lemma respects_raise {A} e : respects R (@raise S A e).
Proof. intros s. apply R_refl. Qed.

Lemma respects_bind {A B} (m : M S A) (k : A -> M S B) :
  respects R m -> (forall a, respects R (k a)) -> respects R (bind m k).
Proof.
  intros Hm Hk s. unfold bind. specialize (Hm s).
  destruct (m s) as [[a|e|] s1]; cbn in *; try done.
  eapply R_trans; [exact Hm | apply Hk].
Qed.

Lemma respects_try_finally {A} (body : M S A) (fin : M S unit) :
  respects R body -> respects R fin -> respects R (try_finally body fin).
Proof.
  intros Hb Hf s. unfold try_finally. specialize (Hb s).
  destruct (body s) as [[a|e|] s1]; cbn in *; try done;
    specialize (Hf s1); destruct (fin s1) as [[[]|e'|] s2]; cbn in *;
    eapply R_trans; eauto.
Qed.

Lemma respects_if {A} (b : bool) (m1 m2 : M S A) :
  respects R m1 -> respects R m2 -> respects R (if b then m1 else m2).
Proof. by destruct b. Qed.

End Respects.

Lemma count_conn_app t1 t2 : count_conn (t1 ++ t2) = count_conn t1 + count_conn t2.
Proof. unfold count_conn. by rewrite List.filter_app, length_app. Qed.

Lemma quiet_refl w : quiet w w.
Proof. exists []. by rewrite app_nil_r. Qed.

Lemma quiet_trans w1 w2 w3 : quiet w1 w2 -> quiet w2 w3 -> quiet w1 w3.
Proof.
  intros (t1 & E1 & C1) (t2 & E2 & C2). exists (t1 ++ t2).
  rewrite E2, E1, <- app_assoc, count_conn_app. split; [done | lia].
Qed.

Lemma quiet_same_trace w w' : trace w' = trace w -> quiet w w'.
Proof. intros E. exists []. by rewrite app_nil_r. Qed.

Lemma quiet_count w w' : quiet w w' -> count_conn (trace w') = count_conn (trace w).
Proof. intros (t & -> & C). rewrite count_conn_app. lia. Qed.

Lemma quiet_st_refl {I} (st : St I) : quiet_st st st.
Proof. split; [done | apply quiet_refl]. Qed.

Lemma quiet_st_trans {I} (s1 s2 s3 : St I) :
  quiet_st s1 s2 -> quiet_st s2 s3 -> quiet_st s1 s3.
Proof.
  intros [A1 Q1] [A2 Q2]. split; [congruence | eapply quiet_trans; eauto].
Qed.

Lemma quiet_log e : is_conn e = false -> respects quiet (log e).
Proof.
  intros He w. exists [e]. split; [done|]. unfold count_conn. cbn. by rewrite He.
Qed.

Lemma quiet_fault s : respects quiet (fault s).
Proof. intros w. unfold fault. destruct (faults w s); apply quiet_refl. Qed.

Lemma quiet_store r o : respects quiet (store r o).
Proof. intros w. by apply quiet_same_trace. Qed.

Lemma quiet_alloc o : respects quiet (alloc o).
Proof. intros w. by apply quiet_same_trace. Qed.

Lemma quiet_get_sock r : respects quiet (get_sock r).
Proof. intros w. unfold get_sock. repeat case_match; apply quiet_refl. Qed.

Lemma quiet_get_file r : respects quiet (get_file r).
Proof. intros w. unfold get_file. repeat case_match; apply quiet_refl. Qed.

Create HintDb quiet.
#[local] Hint Resolve quiet_refl quiet_trans quiet_fault quiet_store quiet_alloc
  quiet_get_sock quiet_get_file : quiet.

Ltac quiet_world :=
  repeat first
    [ apply (respects_bind quiet quiet_trans); [|intros ?]
    | apply (respects_ret quiet quiet_refl)
    | apply (respects_raise quiet quiet_refl)
    | apply (respects_try_finally quiet quiet_trans)
    | apply (respects_if quiet)
    | apply quiet_log; reflexivity
    | solve [auto with quiet]
    | (intros ?; repeat case_match; by apply quiet_same_trace) ].

Lemma quiet_real_close r : respects quiet (Socket.real_close r).
Proof. unfold Socket.real_close. quiet_world. Qed.

Lemma quiet_sock_close r : respects quiet (Socket.close r).
Proof. unfold Socket.close. quiet_world; apply quiet_real_close. Qed.

Lemma quiet_decref r : respects quiet (Socket.decref_socketios r).
Proof. unfold Socket.decref_socketios. quiet_world; apply quiet_sock_close. Qed.

Lemma quiet_file_close f : respects quiet (TextIO.close f).
Proof. unfold TextIO.close. quiet_world; apply quiet_decref. Qed.

Lemma quiet_datastream f : respects quiet (DataStream_new f).
Proof. unfold DataStream_new. quiet_world. Qed.

Lemma quiet_lift {I A} (m : W A) : respects quiet m -> respects (@quiet_st I) (lift m).
Proof.
  intros Hm st. unfold lift. specialize (Hm (world st)).
  destruct (m (world st)) as [o w']. by split.
Qed.

Lemma quiet_getattr {I A} name (proj : I -> option A) :
  respects quiet_st (getattr name proj).
Proof. intros st. unfold getattr. destruct (proj (self st)); apply quiet_st_refl. Qed.

Ltac quiet_method :=
  repeat first
    [ apply (respects_bind quiet_st quiet_st_trans); [|intros ?]
    | apply quiet_getattr
    | apply quiet_lift ].

Lemma quiet_server_close : respects quiet_st TcpServer.close.
Proof.
  unfold TcpServer.close. quiet_method;
    first [apply quiet_file_close | apply quiet_sock_close].
Qed.

Lemma quiet_server_get_stream : respects quiet_st TcpServer.get_stream.
Proof. unfold TcpServer.get_stream. quiet_method. apply quiet_datastream. Qed.

Lemma quiet_client_close : respects quiet_st TcpClient.close.
Proof.
  unfold TcpClient.close. quiet_method;
    first [apply quiet_file_close | apply quiet_sock_close].
Qed.

Lemma quiet_client_get_stream : respects quiet_st TcpClient.get_stream.
Proof. unfold TcpClient.get_stream. quiet_method. apply quiet_datastream. Qed.

Lemma quiet_server_calls cs : forall st, quiet_st st (server_calls cs st).
Proof.
  induction cs as [|c cs IH]; intros st; [apply quiet_st_refl|].
  cbn. eapply quiet_st_trans; [|apply IH].
  destruct c; [apply quiet_server_get_stream | apply quiet_server_close].
Qed.

Lemma quiet_client_calls cs : forall st, quiet_st st (client_calls cs st).
Proof.
  induction cs as [|c cs IH]; intros st; [apply quiet_st_refl|].
  cbn. eapply quiet_st_trans; [|apply IH].
  destruct c; [apply quiet_client_get_stream | apply quiet_client_close].
Qed.

(** C7. Whatever calls of [get_stream] and [close] follow the constructor,
    in whatever order and whatever their outcomes, the instance has called
    [accept] (a listener) or [connect] (a connector) at most once, and
    exactly once if the constructor returned: the one call is the
    constructor's, and the later calls neither connect again nor change
    the attributes that hold the connection. *)
Theorem single_connection ip port w calls :
  (let r := TcpServer.__init__ ip port (mkSt TcpServer.empty w) in
   let st' := server_calls calls (snd r) in
   count_conn (trace (world st')) <= count_conn (trace w) + 1 /\
   count_conn (trace (world st')) = count_conn (trace (world (snd r))) /\
   self st' = self (snd r) /\
   (fst r = Returned tt ->
    count_conn (trace (world st')) = count_conn (trace w) + 1 /\
    TcpServer.clientsock (self st') = Some (S (next w)) /\
    TcpServer.stream (self st') = Some (S (S (next w))))) /\
  (let r := TcpClient.__init__ ip port (mkSt TcpClient.empty w) in
   let st' := client_calls calls (snd r) in
   count_conn (trace (world st')) <= count_conn (trace w) + 1 /\
   count_conn (trace (world st')) = count_conn (trace (world (snd r))) /\
   self st' = self (snd r) /\
   (fst r = Returned tt ->
    count_conn (trace (world st')) = count_conn (trace w) + 1 /\
    TcpClient.client (self st') = Some (next w) /\
    TcpClient.stream (self st') = Some (S (next w)))).
Proof.
  split; intros r st'.
  - destruct (quiet_server_calls calls (snd r)) as [Hs Hq]. fold st' in Hs, Hq.
    apply quiet_count in Hq. rewrite Hq, Hs.
    pose proof (server_init_run ip port w) as R. fold r in R.
    destruct r as [o st]. simp_all.
    inversion R; subst;
      repeat match goal with
             | H : self st = _ |- _ => rewrite H; clear H
             | H : trace (world st) = _ |- _ => rewrite H; clear H
             end;
      unfold server_connected; simp; rewrite count_conn_app;
      (split_and!; [cbn; lia | done | done | first [intros [=] | intros _]]);
      split_and!; first [done | cbn; lia].
  - destruct (quiet_client_calls calls (snd r)) as [Hs Hq]. fold st' in Hs, Hq.
    apply quiet_count in Hq. rewrite Hq, Hs.
    pose proof (client_init_run ip port w) as R. fold r in R.
    destruct r as [o st]. simp_all.
    inversion R; subst;
      repeat match goal with
             | H : self st = _ |- _ => rewrite H; clear H
             | H : trace (world st) = _ |- _ => rewrite H; clear H
             end;
      unfold client_connected; simp; rewrite count_conn_app;
      (split_and!; [cbn; lia | done | done | first [intros [=] | intros _]]);
      split_and!; first [done | cbn; lia].
Qed.

(** C7, at a concrete world: the listener constructed with one peer queued,
    then used and closed several times over. *)
Lemma single_connection_witness :
  fst (TcpServer.__init__ default_ip default_port (mkSt TcpServer.empty world_one_peer)) =
    Returned tt /\
  count_conn
    (trace (world (server_calls [GetStream; Close; GetStream; Close; Close]
                     (snd (TcpServer.__init__ default_ip default_port
                             (mkSt TcpServer.empty world_one_peer)))))) =
    count_conn (trace world_one_peer) + 1.
Proof.
  assert (fst (TcpServer.__init__ default_ip default_port
                 (mkSt TcpServer.empty world_one_peer)) = Returned tt) as E
    by (vm_compute; reflexivity).
  split; [exact E|].
  exact (proj1 (proj2 (proj2 (proj2
    (proj1 (single_connection default_ip default_port world_one_peer
              [GetStream; Close; GetStream; Close; Close])))) E)).
Defined.

(** * Further properties of the two classes *)

(** ** When the constructors return, and how they fail *)





(** Whatever the outcome of the constructor, the socket it created first is
    still there with a valid descriptor. *)
Lemma server_init_socket_open ip port w :
  faults w AtSocket = None ->
  exists s,
    heap (world (snd (TcpServer.__init__ ip port (mkSt TcpServer.empty w)))) !! next w =
      Some (Sock s) /\
    s_fd s = true /\ s_closed s = false.
Proof.
  intros F1.
  unfold TcpServer.__init__. unfold_m. simp.
  rewrite socket_eq, F1; simp.
  erewrite setsockopt_reuseaddr_eq by lk. simp.
  destruct (faults w (AtSetsockopt (next w))); simp;
    [eexists; split; [lk | done]|].
  erewrite bind_addr_eq by lk. simp.
  destruct (faults w (AtBind (next w))); simp; [eexists; split; [lk | done]|].
  destruct (decide ((ip, port) ∈ listening w)); simp; [eexists; split; [lk | done]|].
  erewrite listen_eq by lk. simp.
  destruct (faults w (AtListen (next w))); simp; [eexists; split; [lk | done]|].
  erewrite accept_eq by lk. simp.
  destruct (faults w (AtAccept (next w))); simp; [eexists; split; [lk | done]|].
  destruct (incoming w !! (ip, port)) as [[|peer rest]|]; simp;
    [eexists; split; [lk | done] | | eexists; split; [lk | done]].
  erewrite makefile_rw_eq by lk. simp.
  eexists; split; [lk | done].
Qed.

Lemma client_init_socket_open ip port w :
  faults w AtSocket = None ->
  exists s,
    heap (world (snd (TcpClient.__init__ ip port (mkSt TcpClient.empty w)))) !! next w =
      Some (Sock s) /\
    s_fd s = true /\ s_closed s = false.
Proof.
  intros F1.
  unfold TcpClient.__init__. unfold_m. simp.
  rewrite socket_eq, F1; simp.
  erewrite connect_eq by lk. simp.
  destruct (faults w (AtConnect (next w))); simp; [eexists; split; [lk | done]|].
  destruct (decide ((ip, port) ∈ listening w)); simp; [|eexists; split; [lk | done]].
  erewrite makefile_rw_eq by lk. simp.
  eexists; split; [lk | done].
Qed.

(** X4. The constructors never close anything. Whatever their outcome (a
    return, an exception, a wait without end in [accept]), no call of
    [close] is among the calls they made, and the socket they created
    first is still open: a constructor that fails does not release the
    socket it had opened. *)
Theorem constructors_never_close ip port w :
  (exists t,
     trace (world (snd (TcpServer.__init__ ip port (mkSt TcpServer.empty w)))) =
       trace w ++ t /\
     forallb (fun e => negb (is_close e)) t = true /\
     (faults w AtSocket = None ->
      exists s,
        heap (world (snd (TcpServer.__init__ ip port (mkSt TcpServer.empty w)))) !! next w =
          Some (Sock s) /\
        s_fd s = true /\ s_closed s = false)) /\
  (exists t,
     trace (world (snd (TcpClient.__init__ ip port (mkSt TcpClient.empty w)))) =
       trace w ++ t /\
     forallb (fun e => negb (is_close e)) t = true /\
     (faults w AtSocket = None ->
      exists s,
        heap (world (snd (TcpClient.__init__ ip port (mkSt TcpClient.empty w)))) !! next w =
          Some (Sock s) /\
        s_fd s = true /\ s_closed s = false)).
Proof.
  split.
  - pose proof (server_init_run ip port w) as R.
    pose proof (server_init_socket_open ip port w) as Hs.
    destruct (TcpServer.__init__ ip port _) as [o st]. simp_all.
    inversion R; subst;
      (eexists; split_and!; [eassumption || reflexivity | reflexivity | exact Hs]).
  - pose proof (client_init_run ip port w) as R.
    pose proof (client_init_socket_open ip port w) as Hs.
    destruct (TcpClient.__init__ ip port _) as [o st]. simp_all.
    inversion R; subst;
      (eexists; split_and!; [eassumption || reflexivity | reflexivity | exact Hs]).
Qed.

(** X4, at the world where the listener's address is taken: the constructor
    raises and the socket it opened (identity 0) stays open. *)
Lemma constructors_never_close_witness :
  fst (TcpServer.__init__ default_ip default_port (mkSt TcpServer.empty world_listener)) =
    Raised (OSError EADDRINUSE) /\
  exists s,
    heap (world (snd (TcpServer.__init__ default_ip default_port
                        (mkSt TcpServer.empty world_listener)))) !! 0 = Some (Sock s) /\
    s_fd s = true /\ s_closed s = false.
Proof.
  split; [vm_compute; reflexivity|].
  destruct (proj1 (constructors_never_close default_ip default_port world_listener))
    as (t & _ & _ & Hs).
  exact (Hs eq_refl).
Defined.

(** ** Closing again after a failed [close] *)

(** [close] of a listener whose stream is closed already and whose sockets
    are still open. *)
Lemma server_close_streamless_eq st ls cs f sl sc fo :
  server_at st ls cs f sl sc fo ->
  f_closed fo = true -> sock_idle sc -> sock_idle sl ->
  TcpServer.close st =
    let w0 := set_trace (trace (world st) ++ [EvFileClose f]) (world st) in
    let w2 := after_sock_close w0 cs sc in
    let w3 := after_sock_close w2 ls sl in
    match close_outcome (world st) cs with
    | Returned _ => (close_outcome (world st) ls, mkSt (self st) w3)
    | o => (o, mkSt (self st) w2)
    end.
Proof.
  intros (As & Ac & Af & Hl & Hc & Hf & Hfs & Nlc) Hfc (Hcf & Hcc & Hci) (Hlf & Hlc & Hli).
  destruct st as [o w]; simp_all.
  unfold TcpServer.close. unfold_m. simp. rewrite Af; simp.
  rewrite (file_close_again_eq f fo w) by done. simp. rewrite Ac; simp.
  rewrite (sock_close_open_eq cs sc) by done.
  change (close_outcome (set_trace (trace w ++ [EvFileClose f]) w) cs)
    with (close_outcome w cs).
  destruct (close_outcome w cs) as [[]|e|]; simp; try reflexivity.
  rewrite As; simp.
  rewrite (sock_close_open_eq ls sl); cycle 1.
  { unfold after_sock_close; simp. by rewrite lookup_insert_ne by done. }
  { done. }
  { done. }
  reflexivity.
Qed.

Lemma client_close_streamless_eq st cs f sc fo :
  client_at st cs f sc fo ->
  f_closed fo = true -> sock_idle sc ->
  TcpClient.close st =
    (close_outcome (world st) cs,
     mkSt (self st)
          (after_sock_close (set_trace (trace (world st) ++ [EvFileClose f]) (world st))
                            cs sc)).
Proof.
  intros (Ac & Af & Hc & Hf & Hfs) Hfc (Hcf & Hcc & Hci).
  destruct st as [o w]; simp_all.
  unfold TcpClient.close. unfold_m. simp. rewrite Af; simp.
  rewrite (file_close_again_eq f fo w) by done. simp. rewrite Ac; simp.
  rewrite (sock_close_open_eq cs sc) by done.
  reflexivity.
Qed.

(** X5. [close] can be called again after it failed on the stream. When the
    flush of the stream fails and the system calls closing the sockets do
    not, the first [close] of a constructed instance raises the error of the
    flush, and a second [close] returns: it calls [close] on the stream
    again, which is closed by now, and then releases every socket, so that
    after it the descriptors are gone (and the listener's address free). *)
Theorem close_again_after_failed_flush ip port w e :
  (forall st,
     TcpServer.__init__ ip port (mkSt TcpServer.empty w) = (Returned tt, st) ->
     faults w (AtFlush (S (S (next w)))) = Some e ->
     faults w (AtClose (S (next w))) = None ->
     faults w (AtClose (next w)) = None ->
     exists st1 st2 sc sl fo,
       TcpServer.close st = (Raised (OSError e), st1) /\
       TcpServer.close st1 = (Returned tt, st2) /\
       trace (world st2) =
         trace (world st) ++
         [EvFileClose (S (S (next w)));
          EvFileClose (S (S (next w))); EvSockClose (S (next w)); EvSockClose (next w)] /\
       server_at st2 (next w) (S (next w)) (S (S (next w))) sl sc fo /\
       f_closed fo = true /\ sock_gone sc /\ sock_gone sl /\
       ((ip, port) ∉ listening (world st2))) /\
  (forall st,
     TcpClient.__init__ ip port (mkSt TcpClient.empty w) = (Returned tt, st) ->
     faults w (AtFlush (S (next w))) = Some e ->
     faults w (AtClose (next w)) = None ->
     exists st1 st2 sc fo,
       TcpClient.close st = (Raised (OSError e), st1) /\
       TcpClient.close st1 = (Returned tt, st2) /\
       trace (world st2) =
         trace (world st) ++
         [EvFileClose (S (next w)); EvFileClose (S (next w)); EvSockClose (next w)] /\
       client_at st2 (next w) (S (next w)) sc fo /\
       f_closed fo = true /\ sock_gone sc).
Proof.
  split; intros st Hi Ff Fc.
  - intros Fl.
    apply server_init_returned in Hi as (peer & rest & _ & Hn & ->).
    set (st0 := server_connected w (ip, port) peer rest).
    set (st1 := mkSt (self st0)
                  (after_stream_close (world st0) (S (S (next w)))
                                      (text_stream (S (next w))) (peer_sock peer))).
    assert (server_at st1 (next w) (S (next w)) (S (S (next w)))
              (server_sock (ip, port)) (sock_decref (peer_sock peer))
              (file_closed (text_stream (S (next w))))) as Hat.
    { subst st1 st0. unfold server_at. split_and!; first [done | by heap_lk | simp; lia]. }
    assert (TcpServer.close st0 = (Raised (OSError e), st1)) as E1.
    { subst st0. rewrite server_close_connected. cbv zeta.
      unfold flush_outcome. rewrite Ff. reflexivity. }
    assert (close_outcome (world st1) (S (next w)) = Returned tt) as C1
      by (unfold close_outcome; subst st1 st0; heap_lk; by rewrite Fc).
    assert (close_outcome (world st1) (next w) = Returned tt) as C2
      by (unfold close_outcome; subst st1 st0; heap_lk; by rewrite Fl).
    pose proof (server_close_streamless_eq st1 _ _ _ _ _ _ Hat eq_refl
                  ltac:(by repeat split) ltac:(by repeat split)) as E2.
    cbv zeta in E2. rewrite C1, C2 in E2.
    eexists st1, _, (sock_released (sock_decref (peer_sock peer))),
      (sock_released (server_sock (ip, port))), (file_closed (text_stream (S (next w)))).
    split; [exact E1|]. split; [exact E2|].
    subst st1 st0. split_and!.
    + by heap_lk.
    + unfold server_at. split_and!; first [done | by heap_lk | simp; lia].
    + done.
    + by repeat split.
    + by repeat split.
    + unfold after_sock_close, after_stream_close, server_connected, unlisten.
      cbn. intros [_ Hx]%elem_of_difference. apply Hx. by apply elem_of_singleton.
  - apply client_init_returned in Hi as (_ & ->).
    set (st0 := client_connected w (ip, port)).
    set (st1 := mkSt (self st0)
                  (after_stream_close (world st0) (S (next w))
                                      (text_stream (next w)) (client_sock (ip, port)))).
    assert (client_at st1 (next w) (S (next w))
              (sock_decref (client_sock (ip, port)))
              (file_closed (text_stream (next w)))) as Hat.
    { subst st1 st0. unfold client_at. split_and!; first [done | by heap_lk]. }
    assert (TcpClient.close st0 = (Raised (OSError e), st1)) as E1.
    { subst st0. rewrite client_close_connected. cbv zeta.
      unfold flush_outcome. rewrite Ff. reflexivity. }
    assert (close_outcome (world st1) (next w) = Returned tt) as C1
      by (unfold close_outcome; subst st1 st0; heap_lk; by rewrite Fc).
    pose proof (client_close_streamless_eq st1 _ _ _ _ Hat eq_refl
                  ltac:(by repeat split)) as E2.
    rewrite C1 in E2.
    eexists st1, _, (sock_released (sock_decref (client_sock (ip, port)))),
      (file_closed (text_stream (next w))).
    split; [exact E1|]. split; [exact E2|].
    subst st1 st0. split_and!.
    + by heap_lk.
    + unfold client_at. split_and!; first [done | by heap_lk].
    + done.
    + by repeat split.
Qed.

(** X5, at the world where the flush of the listener's stream hits a broken
    pipe. *)
Lemma close_again_after_failed_flush_witness :
  TcpServer.__init__ default_ip default_port (mkSt TcpServer.empty world_one_peer_broken) =
    (Returned tt, listener_broken) /\
  fst (TcpServer.close listener_broken) = Raised (OSError EPIPE) /\
  fst (TcpServer.close (snd (TcpServer.close listener_broken))) = Returned tt.
Proof.
  assert (TcpServer.__init__ default_ip default_port
            (mkSt TcpServer.empty world_one_peer_broken) =
            (Returned tt, listener_broken)) as E by (vm_compute; reflexivity).
  split; [exact E|].
  destruct (proj1 (close_again_after_failed_flush default_ip default_port
                     world_one_peer_broken EPIPE) _ E eq_refl eq_refl eq_refl)
    as (st1 & st2 & sc & sl & fo & E1 & E2 & _).
  rewrite E1. cbn [fst snd]. rewrite E2. split; reflexivity.
Defined.

(** ** One endpoint, several instances *)







(** ** What [close] does in any state *)

Lemma same_alloc_refl w : same_alloc w w.
Proof. by repeat split. Qed.

Lemma same_alloc_trans w1 w2 w3 : same_alloc w1 w2 -> same_alloc w2 w3 -> same_alloc w1 w3.
Proof. intros (A1 & B1 & C1) (A2 & B2 & C2). repeat split; congruence. Qed.

Lemma same_alloc_st_refl {I} (st : St I) : same_alloc_st st st.
Proof. split; [done | apply same_alloc_refl]. Qed.

Lemma same_alloc_st_trans {I} (s1 s2 s3 : St I) :
  same_alloc_st s1 s2 -> same_alloc_st s2 s3 -> same_alloc_st s1 s3.
Proof.
  intros [A1 Q1] [A2 Q2]. split; [congruence | eapply same_alloc_trans; eauto].
Qed.

Ltac same_alloc_world :=
  repeat first
    [ apply (respects_bind same_alloc same_alloc_trans); [|intros ?]
    | apply (respects_ret same_alloc same_alloc_refl)
    | apply (respects_raise same_alloc same_alloc_refl)
    | apply (respects_try_finally same_alloc same_alloc_trans)
    | apply (respects_if same_alloc)
    | (intros ?; unfold log, fault, store, get_sock, get_file;
       repeat case_match; by repeat split) ].

Lemma same_alloc_real_close r : respects same_alloc (Socket.real_close r).
Proof. unfold Socket.real_close. same_alloc_world. Qed.

Lemma same_alloc_sock_close r : respects same_alloc (Socket.close r).
Proof. unfold Socket.close. same_alloc_world; apply same_alloc_real_close. Qed.

Lemma same_alloc_decref r : respects same_alloc (Socket.decref_socketios r).
Proof. unfold Socket.decref_socketios. same_alloc_world; apply same_alloc_sock_close. Qed.

Lemma same_alloc_file_close f : respects same_alloc (TextIO.close f).
Proof. unfold TextIO.close. same_alloc_world; apply same_alloc_decref. Qed.

Lemma same_alloc_lift {I A} (m : W A) :
  respects same_alloc m -> respects (@same_alloc_st I) (lift m).
Proof.
  intros Hm st. unfold lift. specialize (Hm (world st)).
  destruct (m (world st)) as [o w']. by split.
Qed.

Lemma same_alloc_getattr {I A} name (proj : I -> option A) :
  respects same_alloc_st (getattr name proj).
Proof.
  intros st. unfold getattr. destruct (proj (self st)); apply same_alloc_st_refl.
Qed.

Ltac same_alloc_method :=
  repeat first
    [ apply (respects_bind same_alloc_st same_alloc_st_trans); [|intros ?]
    | apply same_alloc_getattr
    | apply same_alloc_lift ].

(** X9. In any state at all (constructed or not, open, half closed or
    closed), and whatever its outcome, [close] creates no object, takes no
    peer from a queue, and leaves the attributes of the instance alone. *)
Theorem close_creates_nothing :
  (forall st : St TcpServer.t,
     self (snd (TcpServer.close st)) = self st /\
     next (world (snd (TcpServer.close st))) = next (world st) /\
     incoming (world (snd (TcpServer.close st))) = incoming (world st)) /\
  (forall st : St TcpClient.t,
     self (snd (TcpClient.close st)) = self st /\
     next (world (snd (TcpClient.close st))) = next (world st) /\
     incoming (world (snd (TcpClient.close st))) = incoming (world st)).
Proof.
  split; intros st.
  - assert (respects same_alloc_st TcpServer.close) as H.
    { unfold TcpServer.close. same_alloc_method;
        first [apply same_alloc_file_close | apply same_alloc_sock_close]. }
    destruct (H st) as (Hs & Hn & Hq & _). done.
  - assert (respects same_alloc_st TcpClient.close) as H.
    { unfold TcpClient.close. same_alloc_method;
        first [apply same_alloc_file_close | apply same_alloc_sock_close]. }
    destruct (H st) as (Hs & Hn & Hq & _). done.
Qed.

(** ** The outcome of [close] on a constructed instance *)

Lemma flush_outcome_cases w f :
  flush_outcome w f = Returned tt \/ exists n, flush_outcome w f = Raised (OSError n).
Proof. unfold flush_outcome. destruct (faults w (AtFlush f)); eauto. Qed.

Lemma close_outcome_cases w r :
  close_outcome w r = Returned tt \/ exists n, close_outcome w r = Raised (OSError n).
Proof.
  unfold close_outcome. destruct (faults w (AtClose r)) as [e|]; eauto.
  destruct (is_ECONNRESET e); eauto.
Qed.

(** X10. [close] of a constructed instance returns exactly when the flush
    of the stream and the system call closing each socket all go through
    ([ECONNRESET] on closing a socket counts as going through), and an
    exception that leaves it is the error of the first of these steps that
    failed. *)
Theorem close_outcome_constructed ip port w :
  (forall st o st1,
     TcpServer.__init__ ip port (mkSt TcpServer.empty w) = (Returned tt, st) ->
     TcpServer.close st = (o, st1) ->
     (o = Returned tt <->
      flush_outcome w (S (S (next w))) = Returned tt /\
      close_outcome w (S (next w)) = Returned tt /\
      close_outcome w (next w) = Returned tt) /\
     (forall e, o = Raised e ->
        flush_outcome w (S (S (next w))) = Raised e \/
        (flush_outcome w (S (S (next w))) = Returned tt /\
         close_outcome w (S (next w)) = Raised e) \/
        (flush_outcome w (S (S (next w))) = Returned tt /\
         close_outcome w (S (next w)) = Returned tt /\
         close_outcome w (next w) = Raised e))) /\
  (forall st o st1,
     TcpClient.__init__ ip port (mkSt TcpClient.empty w) = (Returned tt, st) ->
     TcpClient.close st = (o, st1) ->
     (o = Returned tt <->
      flush_outcome w (S (next w)) = Returned tt /\
      close_outcome w (next w) = Returned tt) /\
     (forall e, o = Raised e ->
        flush_outcome w (S (next w)) = Raised e \/
        (flush_outcome w (S (next w)) = Returned tt /\
         close_outcome w (next w) = Raised e))).
Proof.
  split; intros st o st1 Hi Hc.
  - apply server_init_returned in Hi as (peer & rest & _ & _ & ->).
    rewrite server_close_connected in Hc. cbv zeta in Hc.
    destruct (flush_outcome_cases w (S (S (next w)))) as [Ef|[n Ef]]; rewrite Ef in Hc;
      [|apply pair_equal_spec in Hc as [<- _];
        split; [split; [intros [=] | intros (H1 & _); congruence]
               | intros e [= <-]; by left]].
    destruct (close_outcome_cases w (S (next w))) as [Ec|[n Ec]]; rewrite Ec in Hc;
      [|apply pair_equal_spec in Hc as [<- _];
        split; [split; [intros [=] | intros (_ & H1 & _); congruence]
               | intros e [= <-]; right; left; by split]].
    apply pair_equal_spec in Hc as [<- _].
    split; [split; [by intros -> | by intros (_ & _ & ->)]|].
    intros e He. right; right. by split_and!.
  - apply client_init_returned in Hi as (_ & ->).
    rewrite client_close_connected in Hc. cbv zeta in Hc.
    destruct (flush_outcome_cases w (S (next w))) as [Ef|[n Ef]]; rewrite Ef in Hc;
      [|apply pair_equal_spec in Hc as [<- _];
        split; [split; [intros [=] | intros (H1 & _); congruence]
               | intros e [= <-]; by left]].
    apply pair_equal_spec in Hc as [<- _].
    split; [split; [by intros -> | by intros (_ & ->)]|].
    intros e He. right. by split.
Qed.

(** X10, at the world where the system call closing the listener's peer
    socket fails with [EIO]. *)
Lemma close_outcome_constructed_witness :
  TcpServer.__init__ default_ip default_port (mkSt TcpServer.empty world_one_peer_eio) =
    (Returned tt, listener_eio) /\
  fst (TcpServer.close listener_eio) = Raised (OSError EIO) /\
  flush_outcome world_one_peer_eio 2 = Returned tt /\
  close_outcome world_one_peer_eio 1 = Raised (OSError EIO).
Proof.
  assert (TcpServer.__init__ default_ip default_port (mkSt TcpServer.empty world_one_peer_eio) =
            (Returned tt, listener_eio)) as E by (vm_compute; reflexivity).
  assert (fst (TcpServer.close listener_eio) = Raised (OSError EIO)) as Eo
    by (vm_compute; reflexivity).
  split; [exact E|]. split; [exact Eo|].
  destruct (proj2 (proj1 (close_outcome_constructed default_ip default_port
                            world_one_peer_eio)
                     _ _ _ E (surjective_pairing _)) _ Eo)
    as [H|[H|H]].
  - vm_compute in H. discriminate H.
  - exact H.
  - destruct H as (_ & H & _). vm_compute in H. discriminate H.
Defined.

(** ** When the listener's constructor waits *)

(** X11. For an address whose port the caller fixes (1..65535): the
    constructor of a listener waits without end exactly when creating the
    socket, setting its option, [bind], [listen] and [accept] meet no error
    of the environment, no other listener holds the address, and no peer is
    queued at it. *)
Theorem server_init_blocks_iff ip port w :
  fixed_address ip port ->
  (exists st, TcpServer.__init__ ip port (mkSt TcpServer.empty w) = (Blocked, st)) <->
  (faults w AtSocket = None /\
   faults w (AtSetsockopt (next w)) = None /\
   faults w (AtBind (next w)) = None /\
   faults w (AtListen (next w)) = None /\
   faults w (AtAccept (next w)) = None /\
   ((ip, port) ∉ listening w) /\
   (incoming w !! (ip, port) = None \/ incoming w !! (ip, port) = Some [])).
Proof.
  intros _. split.
  - intros [st H]. revert H. unfold TcpServer.__init__. unfold_m. simp.
    rewrite socket_eq. destruct (faults w AtSocket) eqn:F1; simp; [intros [=]|].
    erewrite setsockopt_reuseaddr_eq by lk. simp.
    destruct (faults w (AtSetsockopt (next w))) eqn:F2; simp; [intros [=]|].
    erewrite bind_addr_eq by lk. simp.
    destruct (faults w (AtBind (next w))) eqn:F3; simp; [intros [=]|].
    destruct (decide ((ip, port) ∈ listening w)); simp; [intros [=]|].
    erewrite listen_eq by lk. simp.
    destruct (faults w (AtListen (next w))) eqn:F4; simp; [intros [=]|].
    erewrite accept_eq by lk. simp.
    destruct (faults w (AtAccept (next w))) eqn:F5; simp; [intros [=]|].
    destruct (incoming w !! (ip, port)) as [[|peer rest]|] eqn:Q; simp.
    + intros _. split_and!; auto.
    + erewrite makefile_rw_eq by lk. simp. intros [=].
    + intros _. split_and!; auto.
  - intros (F1 & F2 & F3 & F4 & F5 & N & Q).
    unfold TcpServer.__init__. unfold_m. simp.
    rewrite socket_eq, F1; simp.
    erewrite setsockopt_reuseaddr_eq by lk. simp. rewrite F2; simp.
    erewrite bind_addr_eq by lk. simp. rewrite F3; simp.
    destruct (decide ((ip, port) ∈ listening w)); [done|]; simp.
    erewrite listen_eq by lk. simp. rewrite F4; simp.
    erewrite accept_eq by lk. simp. rewrite F5; simp.
    destruct Q as [Q|Q]; rewrite Q; simp; eexists; reflexivity.
Qed.

(** X11, at the world where nobody connects. *)
Lemma server_init_blocks_iff_witness :
  fixed_address default_ip default_port /\
  exists st,
    TcpServer.__init__ default_ip default_port (mkSt TcpServer.empty world_idle) =
      (Blocked, st).
Proof.
  assert (fixed_address default_ip default_port) as A
    by (split; [reflexivity | unfold default_port; lia]).
  split; [exact A|].
  apply (proj2 (server_init_blocks_iff default_ip default_port world_idle A)).
  split_and!; try reflexivity.
  - vm_compute. intros H; discriminate H.
  - left. vm_compute. reflexivity.
Defined.
